(** * CTS renderer: resource registries, state tracking and frame assembly

    A shallow embedding of the three renderers of the repository
    (WGLRenderer, WGL2Renderer, WGPURenderer) as state-passing programs.

    - A renderer instance is a record of its fields ([State]); a method is a
      function in the monad [M State], which threads the instance and
      models a JavaScript [throw] as the [Throw] completion.  A method that
      throws keeps the mutations it made before throwing.
    - The native context (WebGL) or device/queue (WebGPU) is an external
      collaborator.  Each call the renderer issues on it is appended to the
      [calls] field; objects it hands out are identified by a [handle] taken
      from the [next_object] counter, so two objects created by distinct calls are
      distinct.  What the platform answers (context acquisition, a creation
      returning null, compile and link status) is read from a [Platform]
      record.
    - [emit] appends to [emitted]; listeners are opaque callbacks whose
      exceptions [emit] catches, and they are assumed not to call back into
      the renderer.  [console.warn] and [console.error] append to [console].
    - Numbers are integers ([Z]); colour components are rationals that are
      only stored and passed on.  Byte arrays are represented by their
      lengths: no method inspects their contents. *)

From Stdlib Require Import ZArith List Bool Lia.
From Stdlib Require QArith.
From stdpp Require Import gmap strings list fin_maps.

#[local] Open Scope Z_scope.

(** ** JavaScript idioms *)

Module JS.

(** Truthiness of an optional number: [undefined] and [0] are falsy. *)
Definition truthy (v : option Z) : bool :=
  match v with
  | Some n => negb (n =? 0)
  | None => false
  end.

(** [v || d] on numbers. *)
Definition or_num (v : option Z) (d : Z) : Z :=
  match v with
  | Some n => if n =? 0 then d else n
  | None => d
  end.

(** Truthiness of an optional string: [undefined], [null] and the empty
    string are falsy. *)
Definition truthy_str (v : option string) : bool :=
  match v with
  | Some s => negb (bool_decide (s = ""))
  | None => false
  end.

(** [v || d] on strings. *)
Definition or_str (v : option string) (d : string) : string :=
  match v with
  | Some s => if bool_decide (s = "") then d else s
  | None => d
  end.

(** [v !== undefined], and [map.has(key)] on the result of a lookup. *)
Definition defined {A} (v : option A) : bool :=
  match v with Some _ => true | None => false end.

(** [v || false] and [v !== false] on optional booleans. *)
Definition or_false (v : option bool) : bool :=
  match v with Some b => b | None => false end.

Definition not_false (v : option bool) : bool :=
  match v with Some b => b | None => true end.

End JS.

(** ** Shared vocabulary *)

Definition handle := nat.

(** The canvas element: the renderers read and write its size. *)
Module Canvas.
Record t : Type := Mk { width : Z; height : Z }.
End Canvas.

(** A clear colour: the components [r], [g], [b], [a]. *)
Record Color : Type := MkColor {
  red : QArith_base.Q;
  green : QArith_base.Q;
  blue : QArith_base.Q;
  alpha_ : QArith_base.Q
}.

Definition tenth : QArith_base.Q := QArith_base.Qmake 1 10.
Definition one : QArith_base.Q := QArith_base.Qmake 1 1.

(** A byte source passed to a buffer operation: an [ArrayBuffer] of a given
    length, or a typed-array view of [view_bytes] bytes over an underlying
    [ArrayBuffer] of [backing_bytes] bytes. *)
Inductive BufferSource : Type :=
| ArrayBuffer (bytes : Z)
| ArrayBufferView (view_bytes : Z) (backing_bytes : Z).

(** [data.byteLength] *)
Definition byteLength (d : BufferSource) : Z :=
  match d with
  | ArrayBuffer n => n
  | ArrayBufferView n _ => n
  end.

(** [data instanceof ArrayBuffer ? data : data.buffer] *)
Definition underlying (d : BufferSource) : BufferSource :=
  match d with
  | ArrayBuffer n => ArrayBuffer n
  | ArrayBufferView _ m => ArrayBuffer m
  end.

(** The errors thrown by the renderers, named after the taxonomy of the
    specification; the comment gives the message of the [Error] object. *)
Inductive Error : Type :=
| UnsupportedBackend (api : string)        (* '<api> is not supported in this browser.' *)
| ContextAcquisitionFailed (what : string) (* 'Failed to get <what>.' *)
| NotInitialized                           (* 'Renderer not initialized.' *)
| InvalidConfig (field : string)           (* 'Buffer <field> is required.' *)
| NotFound (kind name : string)            (* '<kind> "<name>" not found.' *)
| CreationFailed (kind : string)           (* 'Failed to create <kind>.' *)
| CompileOrLinkFailed (info : string)      (* 'Shader compilation failed: ...', 'Program linking failed: ...' *)
| FramebufferIncomplete (status : Z)       (* 'Framebuffer incomplete: <status>' *)
| NoProgramSet                             (* 'No program set. Call useProgram() first.' *)
| NoPipelineSet                            (* 'No pipeline set. Call setPipeline() first.' *)
| TypeError (receiver : string)            (* property access on null or undefined *)
| Rejected (reason : string).              (* an awaited platform promise rejected *)

Inductive Value : Type :=
| VNum (n : Z)
| VStr (s : string)
| VBool (b : bool)
| VUndefined
| VErr (e : Error)
| VObject.

(** An event as passed to [emit(event, data)]: the name and the fields of
    the data object. *)
Record Event : Type := MkEvent { event : string; data : list (string * Value) }.

Inductive Console : Type :=
| Warn (message subject : string)
| ErrorLine (message : string) (e : Error).

(** Number of events of a given name in a log. *)
Definition count_event (name : string) (log : list Event) : nat :=
  length (filter (fun e => event e = name) log).

(** ** Methods: state passing with exceptions *)

Inductive Completion (A : Type) : Type :=
| Normal (a : A)
| Throw (e : Error).
Arguments Normal {A} a.
Arguments Throw {A} e.

Definition M (S A : Type) : Type := S -> Completion A * S.

Definition ret {S A} (a : A) : M S A := fun s => (Normal a, s).

Definition throw {S A} (e : Error) : M S A := fun s => (Throw e, s).

Definition bind {S A B} (m : M S A) (k : A -> M S B) : M S B :=
  fun s =>
    match m s with
    | (Normal a, s') => k a s'
    | (Throw e, s') => (Throw e, s')
    end.

Definition gets {S A} (f : S -> A) : M S A := fun s => (Normal (f s), s).

Definition modify {S} (f : S -> S) : M S unit := fun s => (Normal tt, f s).

(** [try { body } catch (error) { handler(error) }] *)
Definition try_catch {S A} (body : M S A) (handler : Error -> M S A) : M S A :=
  fun s =>
    match body s with
    | (Normal a, s') => (Normal a, s')
    | (Throw e, s') => handler e s'
    end.

(** [xs.forEach(f)] *)
Fixpoint for_each {S A} (xs : list A) (f : A -> M S unit) : M S unit :=
  match xs with
  | [] => ret tt
  | x :: rest => bind (f x) (fun _ => for_each rest f)
  end.

Definition when {S} (c : bool) (m : M S unit) : M S unit :=
  if c then m else ret tt.

Declare Scope js_scope.
Delimit Scope js_scope with js.
Notation "'let*' x ':=' m 'in' k" := (bind m (fun x => k))
  (at level 10, x name, m at level 100, k at level 200) : js_scope.
Notation "m '>>' k" := (bind m (fun _ => k))
  (at level 90, right associativity) : js_scope.
#[local] Open Scope js_scope.

Definition result {S A} (r : Completion A * S) : Completion A := fst r.
Definition after {S A} (r : Completion A * S) : S := snd r.

Definition throws {A} (c : Completion A) (e : Error) : Prop := c = Throw e.

Definition returns {A} (c : Completion A) : Prop := exists a, c = Normal a.

(** Generic field update: [setter proj copy] rebuilds the record through its
    field-by-field copy with the field [proj] replaced. *)
Ltac setter proj copy :=
  let e := eval cbv delta [copy] in copy in
  match eval pattern proj in e with
  | ?f _ => let t := eval cbv beta in (fun v s => f (fun _ => v) s) in exact t
  end.

(** ** The WebGL context interface *)

Module GL.

(** Constants of the rendering context ([this.context.BACK], ...), with the
    values the WebGL specification assigns. *)
Definition DEPTH_BUFFER_BIT : Z := 0x0100.
Definition STENCIL_BUFFER_BIT : Z := 0x0400.
Definition COLOR_BUFFER_BIT : Z := 0x4000.
Definition TRIANGLES : Z := 0x0004.
Definition LESS : Z := 0x0201.
Definition SRC_ALPHA : Z := 0x0302.
Definition ONE_MINUS_SRC_ALPHA : Z := 0x0303.
Definition BACK : Z := 0x0405.
Definition CULL_FACE : Z := 0x0B44.
Definition DEPTH_TEST : Z := 0x0B71.
Definition BLEND : Z := 0x0BE2.
Definition TEXTURE_2D : Z := 0x0DE1.
Definition UNSIGNED_BYTE : Z := 0x1401.
Definition UNSIGNED_SHORT : Z := 0x1403.
Definition FLOAT : Z := 0x1406.
Definition RGBA : Z := 0x1908.
Definition LINEAR : Z := 0x2601.
Definition TEXTURE_MAG_FILTER : Z := 0x2800.
Definition TEXTURE_MIN_FILTER : Z := 0x2801.
Definition TEXTURE_WRAP_S : Z := 0x2802.
Definition TEXTURE_WRAP_T : Z := 0x2803.
Definition CLAMP_TO_EDGE : Z := 0x812F.
Definition ARRAY_BUFFER : Z := 0x8892.
Definition ELEMENT_ARRAY_BUFFER : Z := 0x8893.
Definition STATIC_DRAW : Z := 0x88E4.
Definition FRAGMENT_SHADER : Z := 0x8B30.
Definition VERTEX_SHADER : Z := 0x8B31.
Definition FRAMEBUFFER_COMPLETE : Z := 0x8CD5.
Definition COLOR_ATTACHMENT0 : Z := 0x8CE0.
Definition DEPTH_ATTACHMENT : Z := 0x8D00.
Definition FRAMEBUFFER : Z := 0x8D40.

(** [this.context[name]] for the property names callers pass as object
    keys (texture parameters, attachment points); [None] is [undefined]. *)
Definition property (name : string) : option Z :=
  if bool_decide (name = "TEXTURE_MIN_FILTER") then Some TEXTURE_MIN_FILTER
  else if bool_decide (name = "TEXTURE_MAG_FILTER") then Some TEXTURE_MAG_FILTER
  else if bool_decide (name = "TEXTURE_WRAP_S") then Some TEXTURE_WRAP_S
  else if bool_decide (name = "TEXTURE_WRAP_T") then Some TEXTURE_WRAP_T
  else if bool_decide (name = "COLOR_ATTACHMENT0") then Some COLOR_ATTACHMENT0
  else if bool_decide (name = "DEPTH_ATTACHMENT") then Some DEPTH_ATTACHMENT
  else None.

(** The calls the renderers issue on the context.  A creation call carries
    the object it returned ([None] for null). *)
Inductive Call : Type :=
| clearColor (r g b a : QArith_base.Q)
| clear (mask : Z)
| enable (cap : Z)
| disable (cap : Z)
| depthFunc (func : Z)
| blendFunc (src dst : Z)
| cullFace (mode : Z)
| viewport (x y w h : Z)
| createShader (type : Z) (shader : handle)
| shaderSource (shader : handle) (source : string)
| compileShader (shader : handle)
| deleteShader (shader : handle)
| createProgram (program : handle)
| attachShader (program shader : handle)
| linkProgram (program : handle)
| useProgram (program : handle)
| deleteProgram (program : handle)
| createBuffer (buffer : option handle)
| bindBuffer (target : Z) (buffer : option handle)
| bufferData (target : Z) (bytes : Z) (usage : Z)
| bufferSubData (target : Z) (offset : Z) (bytes : Z)
| deleteBuffer (buffer : handle)
| createTexture (texture : option handle)
| bindTexture (target : Z) (texture : option handle)
| texParameteri (target pname pvalue : Z)
| texImage2D (target level internalFormat w h border format type : Z)
| deleteTexture (texture : handle)
| createFramebuffer (framebuffer : option handle)
| bindFramebuffer (target : Z) (framebuffer : option handle)
| framebufferTexture2D (target : Z) (attachment : option Z) (textarget : Z) (texture : handle) (level : Z)
| deleteFramebuffer (framebuffer : handle)
| createVertexArray (vao : handle)
| bindVertexArray (vao : option handle)
| enableVertexAttribArray (location : Z)
| vertexAttribPointer (location size type : Z) (normalized : bool) (stride offset : Z)
| drawElements (mode count type offset : Z)
| drawArrays (mode first count : Z).

End GL.

(** The constructor of a context object; [x instanceof C] holds when the
    object was constructed by [C]. *)
Inductive ContextFamily : Type :=
| WebGLRenderingContext
| WebGL2RenderingContext
| GPUCanvasContext
| OtherContext.

#[global] Instance ContextFamily_eq_dec : EqDecision ContextFamily.
Proof. solve_decision. Defined.

Definition instanceof (ctx : ContextFamily) (family : ContextFamily) : bool :=
  bool_decide (ctx = family).

(** What the browser answers to the WebGL renderers. *)
Record GLPlatform : Type := MkGLPlatform {
  (* document.createElement('canvas').getContext(kind); None is null *)
  probe_getContext : string -> option ContextFamily;
  (* this.canvas.getContext(kind, this.options_); None is null *)
  canvas_getContext : string -> option ContextFamily;
  (* whether the creation of the buffer, texture or framebuffer that would
     receive this identity returns null instead *)
  creation_fails : handle -> bool;
  (* COMPILE_STATUS of a shader of the given type and source: None when it
     compiled, Some info with the info log otherwise *)
  shader_info_log : Z -> string -> option string;
  (* LINK_STATUS of a program from the two sources *)
  program_info_log : string -> string -> option string;
  (* checkFramebufferStatus for the textures attached so far *)
  framebuffer_status : list (option Z * handle) -> Z
}.

(** ** WGLRenderer (WebGL 1) *)

Module WGLRenderer.

(** The constructor's [options] argument; [None] is an absent property. *)
Record OptionsArg : Type := MkOptionsArg {
  arg_alpha : option bool;
  arg_depth : option bool;
  arg_stencil : option bool;
  arg_antialias : option bool;
  arg_premultipliedAlpha : option bool;
  arg_preserveDrawingBuffer : option bool
}.

Record Options : Type := MkOptions {
  alpha : bool;
  depth : bool;
  stencil : bool;
  antialias : bool;
  premultipliedAlpha : bool;
  preserveDrawingBuffer : bool
}.

Record ProgramMetadata : Type := MkProgramMetadata {
  program : handle;
  vertexShader : handle;
  fragmentShader : handle
}.

Record BufferMetadata : Type := MkBufferMetadata {
  buffer : handle;
  size : Z;
  usage : Z;
  type : Z
}.

Record TextureMetadata : Type := MkTextureMetadata {
  texture : handle;
  width : Z;
  height : Z;
  format : Z;
  internalFormat : Z
}.

Record BlendFunc : Type := MkBlendFunc { src : option Z; dst : option Z }.

Record ShaderConfig : Type := MkShaderConfig { vertex : string; fragment : string }.

Record BufferConfig : Type := MkBufferConfig {
  bc_name : string;
  bc_data : BufferSource;
  bc_usage : option Z;
  bc_type : option Z
}.

Record TextureConfig : Type := MkTextureConfig {
  tc_name : string;
  tc_width : Z;
  tc_height : Z;
  tc_data_bytes : Z;
  tc_format : option Z;
  tc_internalFormat : option Z;
  tc_type : option Z;
  tc_parameters : option (list (string * Z))
}.

Record Attribute : Type := MkAttribute {
  at_location : Z;
  at_size : Z;
  at_type : option Z;
  at_normalized : option bool;
  at_stride : option Z;
  at_offset : option Z
}.

Record DrawCall : Type := MkDrawCall {
  dc_mode : option Z;
  dc_count : option Z;
  dc_indices : option string;
  dc_offset : option Z;
  dc_type : option Z;
  dc_attributes : option (list (string * list Attribute))
}.

(** The fields of an instance.  [VAOs_] and [currentVAO_] are the two
    fields [WGL2Renderer] adds; the last four record the interaction with
    the platform. *)
Record State : Type := MkState {
  canvas : Canvas.t;
  context : option ContextFamily;
  isInitialized : bool;
  options_ : Options;
  programs_ : gmap string ProgramMetadata;
  buffers_ : gmap string BufferMetadata;
  textures_ : gmap string TextureMetadata;
  framebuffers_ : gmap string handle;
  renderbuffers_ : gmap string handle;
  currentProgram_ : option string;
  clearColor_ : Color;
  frameCount_ : Z;
  currentFramebuffer_ : option string;
  blendEnabled_ : bool;
  depthTestEnabled_ : bool;
  cullFaceEnabled_ : bool;
  cullFaceMode_ : Z;
  depthFunc_ : Z;
  blendFunc_ : BlendFunc;
  VAOs_ : gmap string handle;
  currentVAO_ : option string;
  calls : list GL.Call;
  emitted : list Event;
  console : list Console;
  next_object : handle
}.

Definition copy (s : State) : State :=
  MkState (canvas s) (context s) (isInitialized s) (options_ s) (programs_ s)
    (buffers_ s) (textures_ s) (framebuffers_ s) (renderbuffers_ s)
    (currentProgram_ s) (clearColor_ s) (frameCount_ s)
    (currentFramebuffer_ s) (blendEnabled_ s) (depthTestEnabled_ s)
    (cullFaceEnabled_ s) (cullFaceMode_ s) (depthFunc_ s) (blendFunc_ s)
    (VAOs_ s) (currentVAO_ s) (calls s) (emitted s) (console s) (next_object s).

Definition set_canvas : Canvas.t -> State -> State := ltac:(setter canvas copy).
Definition set_context : option ContextFamily -> State -> State := ltac:(setter (context) copy).
Definition set_isInitialized : bool -> State -> State := ltac:(setter isInitialized copy).
Definition set_programs_ : gmap string ProgramMetadata -> State -> State := ltac:(setter programs_ copy).
Definition set_buffers_ : gmap string BufferMetadata -> State -> State := ltac:(setter buffers_ copy).
Definition set_textures_ : gmap string TextureMetadata -> State -> State := ltac:(setter textures_ copy).
Definition set_framebuffers_ : gmap string handle -> State -> State := ltac:(setter framebuffers_ copy).
Definition set_currentProgram_ : option string -> State -> State := ltac:(setter currentProgram_ copy).
Definition set_clearColor_ : Color -> State -> State := ltac:(setter clearColor_ copy).
Definition set_frameCount_ : Z -> State -> State := ltac:(setter frameCount_ copy).
Definition set_currentFramebuffer_ : option string -> State -> State := ltac:(setter currentFramebuffer_ copy).
Definition set_blendEnabled_ : bool -> State -> State := ltac:(setter blendEnabled_ copy).
Definition set_depthTestEnabled_ : bool -> State -> State := ltac:(setter depthTestEnabled_ copy).
Definition set_cullFaceEnabled_ : bool -> State -> State := ltac:(setter cullFaceEnabled_ copy).
Definition set_cullFaceMode_ : Z -> State -> State := ltac:(setter cullFaceMode_ copy).
Definition set_depthFunc_ : Z -> State -> State := ltac:(setter depthFunc_ copy).
Definition set_VAOs_ : gmap string handle -> State -> State := ltac:(setter VAOs_ copy).
Definition set_currentVAO_ : option string -> State -> State := ltac:(setter currentVAO_ copy).
Definition set_calls : list GL.Call -> State -> State := ltac:(setter calls copy).
Definition set_emitted : list Event -> State -> State := ltac:(setter emitted copy).
Definition set_console : list Console -> State -> State := ltac:(setter console copy).
Definition set_next_object : handle -> State -> State := ltac:(setter next_object copy).

(** [new WGLRenderer(canvas, options)].  The trailing [...options] spread
    copies the caller's properties again; on the six recognised boolean
    options it agrees with the defaults computed before it. *)
Definition new (canvas : Canvas.t) (options : OptionsArg) : State :=
  {| canvas := canvas;
     context := None;
     isInitialized := false;
     options_ :=
       {| alpha := JS.not_false (arg_alpha options);
          depth := JS.not_false (arg_depth options);
          stencil := JS.or_false (arg_stencil options);
          antialias := JS.not_false (arg_antialias options);
          premultipliedAlpha := JS.or_false (arg_premultipliedAlpha options);
          preserveDrawingBuffer := JS.or_false (arg_preserveDrawingBuffer options) |};
     programs_ := ∅;
     buffers_ := ∅;
     textures_ := ∅;
     framebuffers_ := ∅;
     renderbuffers_ := ∅;
     currentProgram_ := None;
     clearColor_ := MkColor tenth tenth tenth one;
     frameCount_ := 0;
     currentFramebuffer_ := None;
     blendEnabled_ := false;
     depthTestEnabled_ := false;
     cullFaceEnabled_ := false;
     cullFaceMode_ := 0x0405;
     depthFunc_ := 0x0201;
     blendFunc_ := {| src := Some 0x0302; dst := Some 0x0303 |};
     VAOs_ := ∅;
     currentVAO_ := None;
     calls := [];
     emitted := [];
     console := [];
     next_object := 0%nat |}.

Definition emit (name : string) (d : list (string * Value)) : M State unit :=
  modify (fun s => set_emitted (emitted s ++ [MkEvent name d]) s).

Definition console_warn (message subject : string) : M State unit :=
  modify (fun s => set_console (console s ++ [Warn message subject]) s).

Definition console_error (message : string) (e : Error) : M State unit :=
  modify (fun s => set_console (console s ++ [ErrorLine message e]) s).

(** [this.context.<call>(...)]: a [TypeError] when [this.context] is null. *)
Definition gl (c : GL.Call) : M State unit :=
  fun s =>
    match context s with
    | None => (Throw (TypeError "context"), s)
    | Some _ => (Normal tt, set_calls (calls s ++ [c]) s)
    end.

(** [this.context.<CONSTANT>] *)
Definition gl_const (c : Z) : M State Z :=
  fun s =>
    match context s with
    | None => (Throw (TypeError "context"), s)
    | Some _ => (Normal c, s)
    end.

(** A creation call that always returns an object. *)
Definition gl_new (mk : handle -> GL.Call) : M State handle :=
  fun s =>
    match context s with
    | None => (Throw (TypeError "context"), s)
    | Some _ =>
        (Normal (next_object s),
         set_next_object (S (next_object s)) (set_calls (calls s ++ [mk (next_object s)]) s))
    end.

(** A creation call whose result the renderer checks against null. *)
Definition gl_create (P : GLPlatform) (mk : option handle -> GL.Call)
  : M State (option handle) :=
  fun s =>
    match context s with
    | None => (Throw (TypeError "context"), s)
    | Some _ =>
        if creation_fails P (next_object s)
        then (Normal None, set_calls (calls s ++ [mk None]) s)
        else (Normal (Some (next_object s)),
              set_next_object (S (next_object s))
                (set_calls (calls s ++ [mk (Some (next_object s))]) s))
    end.

Definition isSupported (P : GLPlatform) : bool :=
  let gl :=
    match probe_getContext P "webgl" with
    | Some c => Some c
    | None => probe_getContext P "experimental-webgl"
    end in
  match gl with
  | Some c => instanceof c WebGLRenderingContext
  | None => false
  end.

Definition setClearColor (c : Color) : M State unit :=
  modify (set_clearColor_ c) >>
  gl (GL.clearColor (red c) (green c) (blue c) (alpha_ c)).

Definition setBlendState (enabled : bool) (func : option BlendFunc) : M State unit :=
  let* func := match func with
               | Some f => ret f
               | None => gets blendFunc_
               end in
  modify (set_blendEnabled_ enabled) >>
  if enabled then
    gl (GL.enable GL.BLEND) >>
    gl (GL.blendFunc (JS.or_num (src func) GL.SRC_ALPHA)
                     (JS.or_num (dst func) GL.ONE_MINUS_SRC_ALPHA))
  else gl (GL.disable GL.BLEND).

Definition setDepthTest (enabled : bool) (func : option Z) : M State unit :=
  let* func := match func with
               | Some f => ret f
               | None => gl_const GL.LESS
               end in
  modify (set_depthTestEnabled_ enabled) >>
  modify (set_depthFunc_ func) >>
  if enabled then gl (GL.enable GL.DEPTH_TEST) >> gl (GL.depthFunc func)
  else gl (GL.disable GL.DEPTH_TEST).

Definition setCullFace (enabled : bool) (mode : option Z) : M State unit :=
  let* mode := match mode with
               | Some m => ret m
               | None => gl_const GL.BACK
               end in
  modify (set_cullFaceEnabled_ enabled) >>
  modify (set_cullFaceMode_ mode) >>
  if enabled then gl (GL.enable GL.CULL_FACE) >> gl (GL.cullFace mode)
  else gl (GL.disable GL.CULL_FACE).

(** The part of [initialize] shared with [WGL2Renderer]: the four default
    render states, the flag and the event. *)
Definition set_initial_state : M State bool :=
  let* c := gets clearColor_ in setClearColor c >>
  let* d := gets depthTestEnabled_ in setDepthTest d None >>
  let* b := gets blendEnabled_ in setBlendState b None >>
  let* e := gets cullFaceEnabled_ in
  let* m := gets cullFaceMode_ in setCullFace e (Some m) >>
  modify (set_isInitialized true) >>
  emit "initialized" [("gl", VObject); ("options", VObject)] >>
  ret true.

Definition initialize (P : GLPlatform) : M State bool :=
  if negb (isSupported P) then throw (UnsupportedBackend "WebGL")
  else
    try_catch
      (modify (set_context
                 match canvas_getContext P "webgl" with
                 | Some c => Some c
                 | None => canvas_getContext P "experimental-webgl"
                 end) >>
       let* ctx := gets context in
       match ctx with
       | None => throw (ContextAcquisitionFailed "WebGL context")
       | Some _ => set_initial_state
       end)
      (fun error =>
         console_error "Failed to initialize WGLRenderer:" error >>
         emit "error" [("error", VErr error)] >>
         throw error).

Definition compileShader_ (P : GLPlatform) (type : Z) (source : string)
  : M State handle :=
  let* shader := gl_new (GL.createShader type) in
  gl (GL.shaderSource shader source) >>
  gl (GL.compileShader shader) >>
  match shader_info_log P type source with
  | Some info =>
      gl (GL.deleteShader shader) >>
      throw (CompileOrLinkFailed info)
  | None => ret shader
  end.

Definition createProgram (P : GLPlatform) (name : string) (shaders : ShaderConfig)
  : M State handle :=
  let* ready := gets isInitialized in
  if negb ready then throw NotInitialized
  else
    try_catch
      (let* vs := compileShader_ P GL.VERTEX_SHADER (vertex shaders) in
       let* fs := compileShader_ P GL.FRAGMENT_SHADER (fragment shaders) in
       let* p := gl_new GL.createProgram in
       gl (GL.attachShader p vs) >>
       gl (GL.attachShader p fs) >>
       gl (GL.linkProgram p) >>
       match program_info_log P (vertex shaders) (fragment shaders) with
       | Some info => throw (CompileOrLinkFailed info)
       | None =>
           modify (fun s =>
             set_programs_ (<[name := MkProgramMetadata p vs fs]> (programs_ s)) s) >>
           emit "programCreated" [("name", VStr name)] >>
           ret p
       end)
      (fun error =>
         console_error "Failed to create program" error >>
         emit "error" [("error", VErr error)] >>
         throw error).

Definition createBuffer (P : GLPlatform) (config : BufferConfig) : M State handle :=
  let* ready := gets isInitialized in
  if negb ready then throw NotInitialized
  else
    let* created := gl_create P GL.createBuffer in
    match created with
    | None => throw (CreationFailed "buffer")
    | Some b =>
        let ty := JS.or_num (bc_type config) GL.ARRAY_BUFFER in
        let us := JS.or_num (bc_usage config) GL.STATIC_DRAW in
        gl (GL.bindBuffer ty (Some b)) >>
        gl (GL.bufferData ty (byteLength (bc_data config)) us) >>
        modify (fun s =>
          set_buffers_
            (<[bc_name config :=
                 MkBufferMetadata b (byteLength (bc_data config)) us ty]>
               (buffers_ s)) s) >>
        gl (GL.bindBuffer ty None) >>
        emit "bufferCreated"
          [("name", VStr (bc_name config));
           ("size", VNum (byteLength (bc_data config)));
           ("usage", VNum us); ("type", VNum ty)] >>
        ret b
    end.

Definition updateBuffer (name : string) (data : BufferSource) (offset : option Z)
  : M State unit :=
  let offset := match offset with Some o => o | None => 0 end in
  let* found := gets (fun s => buffers_ s !! name) in
  match found with
  | None => throw (NotFound "Buffer" name)
  | Some bufferMetadata =>
      gl (GL.bindBuffer (type bufferMetadata) (Some (buffer bufferMetadata))) >>
      (if (offset =? 0) && (byteLength data =? size bufferMetadata)
       then gl (GL.bufferData (type bufferMetadata) (byteLength data)
                  (usage bufferMetadata))
       else gl (GL.bufferSubData (type bufferMetadata) offset (byteLength data))) >>
      gl (GL.bindBuffer (type bufferMetadata) None) >>
      emit "bufferUpdated"
        [("name", VStr name); ("offset", VNum offset);
         ("size", VNum (byteLength data))]
  end.

Definition createTexture (P : GLPlatform) (config : TextureConfig) : M State handle :=
  let* ready := gets isInitialized in
  if negb ready then throw NotInitialized
  else
    let* created := gl_create P GL.createTexture in
    match created with
    | None => throw (CreationFailed "texture")
    | Some t =>
        let fmt := JS.or_num (tc_format config) GL.RGBA in
        let ifmt := JS.or_num (tc_internalFormat config) GL.RGBA in
        let ty := JS.or_num (tc_type config) GL.UNSIGNED_BYTE in
        gl (GL.bindTexture GL.TEXTURE_2D (Some t)) >>
        match tc_parameters config with
        | Some parameters =>
            for_each parameters (fun '(pname, pvalue) =>
              match GL.property pname with
              | Some param => gl (GL.texParameteri GL.TEXTURE_2D param pvalue)
              | None => ret tt
              end)
        | None =>
            gl (GL.texParameteri GL.TEXTURE_2D GL.TEXTURE_MIN_FILTER GL.LINEAR) >>
            gl (GL.texParameteri GL.TEXTURE_2D GL.TEXTURE_MAG_FILTER GL.LINEAR) >>
            gl (GL.texParameteri GL.TEXTURE_2D GL.TEXTURE_WRAP_S GL.CLAMP_TO_EDGE) >>
            gl (GL.texParameteri GL.TEXTURE_2D GL.TEXTURE_WRAP_T GL.CLAMP_TO_EDGE)
        end >>
        gl (GL.texImage2D GL.TEXTURE_2D 0 ifmt (tc_width config)
              (tc_height config) 0 fmt ty) >>
        modify (fun s =>
          set_textures_
            (<[tc_name config :=
                 MkTextureMetadata t (tc_width config) (tc_height config) fmt ifmt]>
               (textures_ s)) s) >>
        gl (GL.bindTexture GL.TEXTURE_2D None) >>
        emit "textureCreated"
          [("name", VStr (tc_name config));
           ("width", VNum (tc_width config));
           ("height", VNum (tc_height config))] >>
        ret t
    end.

(** The textures [createFramebuffer] attaches: the entries of [attachments]
    whose texture name is registered, as (attachment point, texture). *)
Definition attached (textures : gmap string TextureMetadata)
  (attachments : list (string * string)) : list (option Z * handle) :=
  omap (fun '(attachmentPoint, attachmentName) =>
          match textures !! attachmentName with
          | Some textureMetadata =>
              Some (GL.property attachmentPoint, texture textureMetadata)
          | None => None
          end) attachments.

Definition createFramebuffer (P : GLPlatform) (name : string)
  (attachments : list (string * string)) : M State handle :=
  let* created := gl_create P GL.createFramebuffer in
  match created with
  | None => throw (CreationFailed "framebuffer")
  | Some framebuffer =>
      gl (GL.bindFramebuffer GL.FRAMEBUFFER (Some framebuffer)) >>
      let* textures := gets textures_ in
      for_each (attached textures attachments) (fun '(attachment, tex) =>
        gl (GL.framebufferTexture2D GL.FRAMEBUFFER attachment GL.TEXTURE_2D tex 0)) >>
      let status := framebuffer_status P (attached textures attachments) in
      if negb (status =? GL.FRAMEBUFFER_COMPLETE) then
        gl (GL.bindFramebuffer GL.FRAMEBUFFER None) >>
        throw (FramebufferIncomplete status)
      else
        modify (fun s => set_framebuffers_ (<[name := framebuffer]> (framebuffers_ s)) s) >>
        gl (GL.bindFramebuffer GL.FRAMEBUFFER None) >>
        emit "framebufferCreated" [("name", VStr name)] >>
        ret framebuffer
  end.

Definition useProgram (name : string) : M State unit :=
  let* found := gets (fun s => programs_ s !! name) in
  match found with
  | None => throw (NotFound "Program" name)
  | Some programMetadata =>
      let* current := gets currentProgram_ in
      if bool_decide (current = Some name) then ret tt
      else
        gl (GL.useProgram (program programMetadata)) >>
        modify (set_currentProgram_ (Some name)) >>
        emit "programSet" [("name", VStr name)]
  end.

(** [name] is [None] for null; the empty string is falsy like null. *)
Definition setFramebuffer (name : option string) : M State unit :=
  let* fbs := gets framebuffers_ in
  let given := JS.truthy_str name in
  let found := match name with Some n => fbs !! n | None => None end in
  if given && negb (JS.defined found) then
    throw (NotFound "Framebuffer" (default "" name))
  else
    gl (GL.bindFramebuffer GL.FRAMEBUFFER (if given then found else None)) >>
    modify (set_currentFramebuffer_ name).

Definition bindTexture (name : string) (target : option Z) : M State unit :=
  let* target := match target with
                 | Some t => ret t
                 | None => gl_const GL.TEXTURE_2D
                 end in
  let* found := gets (fun s => textures_ s !! name) in
  match found with
  | None => throw (NotFound "Texture" name)
  | Some textureMetadata =>
      gl (GL.bindTexture target (Some (texture textureMetadata)))
  end.

Definition draw (drawCall : DrawCall) : M State unit :=
  let* ready := gets isInitialized in
  if negb ready then
    console_warn "Renderer not initialized. Call initialize() first." ""
  else
    let* current := gets currentProgram_ in
    if negb (JS.truthy_str current) then throw NoProgramSet
    else
      let mode := default GL.TRIANGLES (dc_mode drawCall) in
      let offset := default 0 (dc_offset drawCall) in
      let ty := default GL.UNSIGNED_SHORT (dc_type drawCall) in
      match dc_attributes drawCall with
      | Some attributes =>
          for_each attributes (fun '(bufferName, attrs) =>
            let* found := gets (fun s => buffers_ s !! bufferName) in
            match found with
            | Some bufferMetadata =>
                gl (GL.bindBuffer GL.ARRAY_BUFFER (Some (buffer bufferMetadata))) >>
                for_each attrs (fun attr =>
                  gl (GL.enableVertexAttribArray (at_location attr)) >>
                  gl (GL.vertexAttribPointer (at_location attr) (at_size attr)
                        (JS.or_num (at_type attr) GL.FLOAT)
                        (JS.or_false (at_normalized attr))
                        (JS.or_num (at_stride attr) 0)
                        (JS.or_num (at_offset attr) 0)))
            | None => ret tt
            end)
      | None => ret tt
      end >>
      (if JS.truthy_str (dc_indices drawCall) then
         let* found := gets (fun s => buffers_ s !! default "" (dc_indices drawCall)) in
         match found with
         | Some bufferMetadata =>
             gl (GL.bindBuffer GL.ELEMENT_ARRAY_BUFFER (Some (buffer bufferMetadata))) >>
             gl (GL.drawElements mode (default 0 (dc_count drawCall)) ty offset)
         | None => ret tt
         end
       else if JS.truthy (dc_count drawCall) then
         gl (GL.drawArrays mode offset (default 0 (dc_count drawCall)))
       else ret tt) >>
      emit "draw" [("drawCall", VObject)].

Definition setSize (width height : Z) : M State unit :=
  let actualWidth := Z.max 1 width in
  let actualHeight := Z.max 1 height in
  modify (set_canvas (Canvas.Mk actualWidth actualHeight)) >>
  gl (GL.viewport 0 0 actualWidth actualHeight) >>
  emit "resize" [("width", VNum actualWidth); ("height", VNum actualHeight)].

Definition render : M State unit :=
  modify (fun s => set_frameCount_ (frameCount_ s + 1) s) >>
  let* n := gets frameCount_ in
  emit "frameRendered" [("frameCount", VNum n)].

(** The [forEach] loops visit the registries in the order [map_to_list]
    enumerates them. *)
Definition destroy : M State unit :=
  let* programs := gets programs_ in
  for_each (map_to_list programs) (fun '(_, metadata) =>
    gl (GL.deleteProgram (program metadata)) >>
    gl (GL.deleteShader (vertexShader metadata)) >>
    gl (GL.deleteShader (fragmentShader metadata))) >>
  modify (set_programs_ ∅) >>
  let* buffers := gets buffers_ in
  for_each (map_to_list buffers) (fun '(_, metadata) =>
    gl (GL.deleteBuffer (buffer metadata))) >>
  modify (set_buffers_ ∅) >>
  let* textures := gets textures_ in
  for_each (map_to_list textures) (fun '(_, metadata) =>
    gl (GL.deleteTexture (texture metadata))) >>
  modify (set_textures_ ∅) >>
  let* framebuffers := gets framebuffers_ in
  for_each (map_to_list framebuffers) (fun '(_, framebuffer) =>
    gl (GL.deleteFramebuffer framebuffer)) >>
  modify (set_framebuffers_ ∅) >>
  modify (set_context None) >>
  modify (set_isInitialized false) >>
  emit "destroyed" [].

(** [clear(r, g, b, a)]: the mask is built from the constructor's options. *)
Definition clear (c : Color) : M State unit :=
  setClearColor c >>
  let* mask := gl_const GL.COLOR_BUFFER_BIT in
  let* o := gets options_ in
  let* mask :=
    if depth o
    then let* bit := gl_const GL.DEPTH_BUFFER_BIT in ret (Z.lor mask bit)
    else ret mask in
  let* mask :=
    if stencil o
    then let* bit := gl_const GL.STENCIL_BUFFER_BIT in ret (Z.lor mask bit)
    else ret mask in
  gl (GL.clear mask).

(** The helpers [createVertexBuffer] and [createIndexBuffer]: the default
    of [usage] and the [type] of the configuration object are read from the
    context before [createBuffer] is called. *)
Definition createVertexBuffer (P : GLPlatform) (name : string)
  (vertices : BufferSource) (usage : option Z) : M State handle :=
  let* usage := match usage with
                | Some u => ret u
                | None => gl_const GL.STATIC_DRAW
                end in
  let* type := gl_const GL.ARRAY_BUFFER in
  createBuffer P {| bc_name := name; bc_data := vertices;
                    bc_usage := Some usage; bc_type := Some type |}.

Definition createIndexBuffer (P : GLPlatform) (name : string)
  (indices : BufferSource) (usage : option Z) : M State handle :=
  let* usage := match usage with
                | Some u => ret u
                | None => gl_const GL.STATIC_DRAW
                end in
  let* type := gl_const GL.ELEMENT_ARRAY_BUFFER in
  createBuffer P {| bc_name := name; bc_data := indices;
                    bc_usage := Some usage; bc_type := Some type |}.

(** The getters read a registry; [None] is the [null] they return for an
    unregistered name. *)
Definition getBuffer (name : string) (s : State) : option handle :=
  match buffers_ s !! name with
  | Some metadata => Some (buffer metadata)
  | None => None
  end.

Definition getProgram (name : string) (s : State) : option handle :=
  match programs_ s !! name with
  | Some metadata => Some (program metadata)
  | None => None
  end.

Definition getTexture (name : string) (s : State) : option handle :=
  match textures_ s !! name with
  | Some metadata => Some (texture metadata)
  | None => None
  end.

Definition getFramebuffer (name : string) (s : State) : option handle :=
  framebuffers_ s !! name.

End WGLRenderer.

(** ** WGL2Renderer (WebGL 2)

    The class extends [WGLRenderer]: an instance has the same fields, and
    every method not redefined here is the one of [WGLRenderer].  The
    field [GL], a second reference to [context] that no method reads, is
    left out. *)

Module WGL2Renderer.

Import WGLRenderer.

Definition isSupported (P : GLPlatform) : bool :=
  match probe_getContext P "webgl2" with
  | Some c => instanceof c WebGL2RenderingContext
  | None => false
  end.

Definition initialize (P : GLPlatform) : M State bool :=
  if negb (isSupported P) then throw (UnsupportedBackend "WebGL2")
  else
    try_catch
      (modify (set_context (canvas_getContext P "webgl2")) >>
       let* ctx := gets context in
       match ctx with
       | None => throw (ContextAcquisitionFailed "WebGL2 context")
       | Some _ => set_initial_state
       end)
      (fun error =>
         console_error "Failed to initialize WGL2Renderer:" error >>
         emit "error" [("error", VErr error)] >>
         throw error).


Definition bindVAO (name : option string) : M State unit :=
  let* vaos := gets VAOs_ in
  let given := JS.truthy_str name in
  let found := match name with Some n => vaos !! n | None => None end in
  if given && negb (JS.defined found) then
    throw (NotFound "VAO" (default "" name))
  else
    gl (GL.bindVertexArray (if given then found else None)) >>
    modify (set_currentVAO_ (if given then name else None)).

Definition draw (drawCall : DrawCall) : M State unit :=
  let* current := gets currentVAO_ in
  let* vaos := gets VAOs_ in
  (if JS.truthy_str current
   then gl (GL.bindVertexArray (vaos !! default "" current))
   else ret tt) >>
  WGLRenderer.draw drawCall >>
  let* current := gets currentVAO_ in
  if JS.truthy_str current then gl (GL.bindVertexArray None) else ret tt.

End WGL2Renderer.

(** ** The WebGPU interface *)

Module GPU.

(** [GPUTextureUsage] and [GPUBufferUsage] flags, with the values the WebGPU
    specification assigns. *)
Definition TEXTURE_COPY_DST : Z := 0x02.
Definition TEXTURE_BINDING : Z := 0x04.
Definition RENDER_ATTACHMENT : Z := 0x10.
Definition BUFFER_COPY_DST : Z := 0x08.
Definition INDEX : Z := 0x10.
Definition VERTEX : Z := 0x20.
Definition UNIFORM : Z := 0x40.

(** The layout a bind group is created with. *)
Inductive Layout : Type :=
| getBindGroupLayout (pipeline : handle) (index : Z)
| explicitLayout (layout : handle).

(** A colour attachment view: the view of a tracked texture, or
    [this.context_.getCurrentTexture().createView()]. *)
Inductive View : Type :=
| textureView (view : handle)
| currentTextureView.

Inductive PassCommand : Type :=
| setPipeline (pipeline : handle)
| setVertexBuffer (slot : Z) (buffer : handle)
| setBindGroup (index : Z) (bindGroup : handle)
| setIndexBuffer (buffer : handle) (indexFormat : string)
| drawIndexed (indexCount instanceCount firstIndex baseVertex firstInstance : Z)
| draw (vertexCount instanceCount firstVertex firstInstance : Z)
| dispatchWorkgroups (x y z : Z).

Record RenderPassDescriptor : Type := MkRenderPassDescriptor {
  view : View;
  resolveTarget : option View;
  clearValue : Color;
  storeOp : string;
  depthStencilView : option handle;
  depthClearValue : Z;
  stencilClearValue : Z
}.

Record BlendComponent : Type := MkBlendComponent {
  srcFactor : string;
  dstFactor : string;
  operation : string
}.

Record BlendState : Type := MkBlendState {
  color : BlendComponent;
  alpha : BlendComponent
}.

Record DepthStencilState : Type := MkDepthStencilState {
  depthWriteEnabled : bool;
  depthCompare : string;
  depthFormat : string
}.

Record PipelineDescriptor : Type := MkPipelineDescriptor {
  explicit_layout : option handle;   (* None is 'auto' *)
  module : handle;
  target_format : option string;
  blend : option BlendState;
  topology : string;
  cullMode : string;
  depthStencil : option DepthStencilState;
  multisample_count : Z
}.

(** The calls the renderer issues on the device, its queue, the canvas
    context and the objects they returned. *)
Inductive Call : Type :=
| configure (context : handle) (device : option handle) (format : option string) (size : option (Z * Z))
| createBuffer (buffer : handle) (size usage : Z)
| unmap (buffer : handle)
| destroyBuffer (buffer : handle)
| writeBuffer (buffer : handle) (offset bytes : Z)
| createTexture (texture : handle) (w h : Z) (format : option string) (usage sampleCount : Z)
| createView (texture view : handle)
| destroyTexture (texture : handle)
| writeTexture (texture : handle) (bytesPerRow w h : Z)
| createSampler (sampler : handle) (addressModeU addressModeV addressModeW magFilter minFilter : string)
| createShaderModule (module : handle) (code : string)
| createPipelineLayout (layout : handle) (bindGroupLayouts : list handle)
| createRenderPipeline (pipeline : handle) (descriptor : PipelineDescriptor)
| createComputePipeline (pipeline module : handle)
| createBindGroupLayout (layout : handle) (label : string)
| createBindGroup (bindGroup : handle) (layout : Layout) (entries : list (Z * handle))
| submitRenderPass (descriptor : RenderPassDescriptor) (commands : list PassCommand)
| submitComputePass (commands : list PassCommand).

End GPU.

(** An awaited platform promise. *)
Inductive Awaited (A : Type) : Type :=
| Resolves (a : A)
| Rejects (reason : string).
Arguments Resolves {A} a.
Arguments Rejects {A} reason.

(** What the browser answers to the WebGPU renderer. *)
Record GPUPlatform : Type := MkGPUPlatform {
  has_navigator : bool;      (* typeof navigator !== 'undefined' *)
  has_gpu : bool;            (* navigator.gpu !== undefined *)
  has_GPUAdapter : bool;     (* typeof GPUAdapter !== 'undefined' *)
  has_GPUDevice : bool;      (* typeof GPUDevice !== 'undefined' *)
  requestAdapter : Awaited bool;   (* false: resolves to null *)
  requestDevice : Awaited bool;    (* false: resolves to null *)
  getContext_webgpu : bool;        (* false: canvas.getContext('webgpu') is null *)
  getPreferredCanvasFormat : string
}.

(** ** WGPURenderer (WebGPU) *)

Module WGPURenderer.

Record BufferMetadata : Type := MkBufferMetadata {
  buffer : handle;
  size : Z;
  usage : Z;
  indexFormat : option string
}.

Record TextureMetadata : Type := MkTextureMetadata {
  texture : handle;
  view : handle;
  width : Z;
  height : Z;
  format : option string;
  textureUsage : Z;
  sampleCount : option Z
}.

Record BindGroup : Type := MkBindGroup {
  bindGroup : handle;
  layout : GPU.Layout;
  entries : list (Z * handle)
}.

Record ShaderConfig : Type := MkShaderConfig { vertex : string; fragment : string }.

Record BufferConfig : Type := MkBufferConfig {
  bc_name : option string;
  bc_data : option BufferSource;
  bc_usage : option Z;
  bc_indexFormat : option string
}.

Record TextureConfig : Type := MkTextureConfig {
  tc_name : string;
  tc_width : Z;
  tc_height : Z;
  tc_format : option string;
  tc_usage : option Z
}.

Record SamplerConfig : Type := MkSamplerConfig {
  sc_name : string;
  sc_addressModeU : option string;
  sc_addressModeV : option string;
  sc_addressModeW : option string;
  sc_magFilter : option string;
  sc_minFilter : option string
}.

Record RenderTargetConfig : Type := MkRenderTargetConfig {
  rc_name : string;
  rc_width : Z;
  rc_height : Z;
  rc_format : option string;
  rc_sampleCount : option Z
}.

Record BindGroupConfig : Type := MkBindGroupConfig {
  gc_name : string;
  gc_entries : list (Z * handle)
}.

Record PrimitiveConfig : Type := MkPrimitiveConfig {
  pr_topology : option string;
  pr_cullMode : option string
}.

Record PipelineConfig : Type := MkPipelineConfig {
  pc_shaders : ShaderConfig;
  pc_primitive : option PrimitiveConfig;
  pc_depthStencil : option GPU.DepthStencilState;
  pc_bindGroupLayouts : option (list handle)
}.

Record BlendConfig : Type := MkBlendConfig {
  bl_srcFactor : option string;
  bl_dstFactor : option string;
  bl_colorOperation : option string;
  bl_alphaSrcFactor : option string;
  bl_alphaDstFactor : option string;
  bl_alphaOperation : option string
}.

Record DepthConfig : Type := MkDepthConfig {
  dp_depthWriteEnabled : option bool;
  dp_compare : option string
}.

Record DrawCall : Type := MkDrawCall {
  dc_vertexBuffers : option (list (Z * string));
  dc_bindGroups : option (list (Z * string));
  dc_indexBuffer : option string;
  dc_indexCount : option Z;
  dc_instanceCount : option Z;
  dc_firstIndex : option Z;
  dc_baseVertex : option Z;
  dc_firstInstance : option Z;
  dc_vertexCount : option Z;
  dc_firstVertex : option Z
}.

Record DispatchConfig : Type := MkDispatchConfig {
  workgroupCountX : Z;
  workgroupCountY : option Z;
  workgroupCountZ : option Z;
  dp_bindGroups : option (list (Z * string))
}.

(** The fields of an instance; the last four record the interaction with
    the platform. *)
Record State : Type := MkState {
  canvas : Canvas.t;
  isInitialized : bool;
  device_ : option handle;
  context_ : option handle;
  format_ : option string;
  pipelines_ : gmap string handle;
  computePipelines_ : gmap string handle;
  buffers_ : gmap string BufferMetadata;
  textures_ : gmap string TextureMetadata;
  samplers_ : gmap string handle;
  bindGroups_ : gmap string BindGroup;
  renderTargets_ : gmap string TextureMetadata;
  currentPipeline_ : option string;
  clearColor_ : Color;
  clearDepth_ : Z;
  clearStencil_ : Z;
  shaderModules_ : gmap string handle;
  frameCount_ : Z;
  currentRenderTarget_ : option string;
  bindGroupLayouts_ : gmap string handle;
  currentVertexBuffers_ : gmap Z (handle * Z);
  currentBindGroups_ : gmap Z BindGroup;
  blendState_ : option GPU.BlendState;
  depthStencilState_ : option GPU.DepthStencilState;
  depthStencilTexture_ : option TextureMetadata;
  msaaSampleCount_ : Z;
  msaaTexture_ : option TextureMetadata;
  blendEnabled_ : bool;
  depthEnabled_ : bool;
  cullMode_ : string;
  calls : list GPU.Call;
  emitted : list Event;
  console : list Console;
  next_object : handle
}.

Definition copy (s : State) : State :=
  MkState (canvas s) (isInitialized s) (device_ s) (context_ s) (format_ s)
    (pipelines_ s) (computePipelines_ s) (buffers_ s) (textures_ s)
    (samplers_ s) (bindGroups_ s) (renderTargets_ s) (currentPipeline_ s)
    (clearColor_ s) (clearDepth_ s) (clearStencil_ s) (shaderModules_ s)
    (frameCount_ s) (currentRenderTarget_ s) (bindGroupLayouts_ s)
    (currentVertexBuffers_ s) (currentBindGroups_ s) (blendState_ s)
    (depthStencilState_ s) (depthStencilTexture_ s) (msaaSampleCount_ s)
    (msaaTexture_ s) (blendEnabled_ s) (depthEnabled_ s) (cullMode_ s)
    (calls s) (emitted s) (console s) (next_object s).

Definition set_canvas : Canvas.t -> State -> State := ltac:(setter canvas copy).
Definition set_isInitialized : bool -> State -> State := ltac:(setter isInitialized copy).
Definition set_device_ : option handle -> State -> State := ltac:(setter device_ copy).
Definition set_context_ : option handle -> State -> State := ltac:(setter context_ copy).
Definition set_format_ : option string -> State -> State := ltac:(setter format_ copy).
Definition set_pipelines_ : gmap string handle -> State -> State := ltac:(setter pipelines_ copy).
Definition set_computePipelines_ : gmap string handle -> State -> State := ltac:(setter computePipelines_ copy).
Definition set_buffers_ : gmap string BufferMetadata -> State -> State := ltac:(setter buffers_ copy).
Definition set_textures_ : gmap string TextureMetadata -> State -> State := ltac:(setter textures_ copy).
Definition set_samplers_ : gmap string handle -> State -> State := ltac:(setter samplers_ copy).
Definition set_bindGroups_ : gmap string BindGroup -> State -> State := ltac:(setter bindGroups_ copy).
Definition set_renderTargets_ : gmap string TextureMetadata -> State -> State := ltac:(setter renderTargets_ copy).
Definition set_currentPipeline_ : option string -> State -> State := ltac:(setter currentPipeline_ copy).
Definition set_clearColor_ : Color -> State -> State := ltac:(setter clearColor_ copy).
Definition set_shaderModules_ : gmap string handle -> State -> State := ltac:(setter shaderModules_ copy).
Definition set_frameCount_ : Z -> State -> State := ltac:(setter frameCount_ copy).
Definition set_currentRenderTarget_ : option string -> State -> State := ltac:(setter currentRenderTarget_ copy).
Definition set_bindGroupLayouts_ : gmap string handle -> State -> State := ltac:(setter bindGroupLayouts_ copy).
Definition set_currentVertexBuffers_ : gmap Z (handle * Z) -> State -> State := ltac:(setter currentVertexBuffers_ copy).
Definition set_currentBindGroups_ : gmap Z BindGroup -> State -> State := ltac:(setter currentBindGroups_ copy).
Definition set_blendState_ : option GPU.BlendState -> State -> State := ltac:(setter blendState_ copy).
Definition set_depthStencilState_ : option GPU.DepthStencilState -> State -> State := ltac:(setter depthStencilState_ copy).
Definition set_depthStencilTexture_ : option TextureMetadata -> State -> State := ltac:(setter depthStencilTexture_ copy).
Definition set_msaaSampleCount_ : Z -> State -> State := ltac:(setter msaaSampleCount_ copy).
Definition set_msaaTexture_ : option TextureMetadata -> State -> State := ltac:(setter msaaTexture_ copy).
Definition set_blendEnabled_ : bool -> State -> State := ltac:(setter blendEnabled_ copy).
Definition set_depthEnabled_ : bool -> State -> State := ltac:(setter depthEnabled_ copy).
Definition set_cullMode_ : string -> State -> State := ltac:(setter cullMode_ copy).
Definition set_calls : list GPU.Call -> State -> State := ltac:(setter calls copy).
Definition set_emitted : list Event -> State -> State := ltac:(setter emitted copy).
Definition set_console : list Console -> State -> State := ltac:(setter console copy).
Definition set_next_object : handle -> State -> State := ltac:(setter next_object copy).

(** [new WGPURenderer(canvas)] *)
Definition new (canvas : Canvas.t) : State :=
  {| canvas := canvas;
     isInitialized := false;
     device_ := None;
     context_ := None;
     format_ := None;
     pipelines_ := ∅;
     computePipelines_ := ∅;
     buffers_ := ∅;
     textures_ := ∅;
     samplers_ := ∅;
     bindGroups_ := ∅;
     renderTargets_ := ∅;
     currentPipeline_ := None;
     clearColor_ := MkColor tenth tenth tenth one;
     clearDepth_ := 1;
     clearStencil_ := 0;
     shaderModules_ := ∅;
     frameCount_ := 0;
     currentRenderTarget_ := None;
     bindGroupLayouts_ := ∅;
     currentVertexBuffers_ := ∅;
     currentBindGroups_ := ∅;
     blendState_ := None;
     depthStencilState_ := None;
     depthStencilTexture_ := None;
     msaaSampleCount_ := 1;
     msaaTexture_ := None;
     blendEnabled_ := false;
     depthEnabled_ := false;
     cullMode_ := "none";
     calls := [];
     emitted := [];
     console := [];
     next_object := 0%nat |}.

Definition emit (name : string) (d : list (string * Value)) : M State unit :=
  modify (fun s => set_emitted (emitted s ++ [MkEvent name d]) s).

Definition console_warn (message subject : string) : M State unit :=
  modify (fun s => set_console (console s ++ [Warn message subject]) s).

Definition console_error (message : string) (e : Error) : M State unit :=
  modify (fun s => set_console (console s ++ [ErrorLine message e]) s).

(** A call on an object the renderer already holds. *)
Definition gpu (c : GPU.Call) : M State unit :=
  modify (fun s => set_calls (calls s ++ [c]) s).

(** [this.device_]: property access on it is a [TypeError] when it is null. *)
Definition device : M State handle :=
  fun s =>
    match device_ s with
    | None => (Throw (TypeError "device_"), s)
    | Some d => (Normal d, s)
    end.

(** The identity of the object a creation call returns. *)
Definition new_object : M State handle :=
  fun s => (Normal (next_object s), set_next_object (S (next_object s)) s).

(** [this.device_.create<Kind>(...)] *)
Definition device_create (mk : handle -> GPU.Call) : M State handle :=
  device >>
  let* h := new_object in
  gpu (mk h) >>
  ret h.

Definition isSupported (P : GPUPlatform) : bool :=
  has_navigator P && has_gpu P && has_GPUAdapter P && has_GPUDevice P.

(** [await promise]: a rejection is thrown at the [await]. *)
Definition await {A} (p : Awaited A) : M State A :=
  match p with
  | Resolves a => ret a
  | Rejects reason => throw (Rejected reason)
  end.

Definition initialize (P : GPUPlatform) : M State bool :=
  if negb (isSupported P) then throw (UnsupportedBackend "WebGPU")
  else
    try_catch
      (let* adapter := await (requestAdapter P) in
       if negb adapter then throw (ContextAcquisitionFailed "GPU adapter")
       else
         let* granted := await (requestDevice P) in
         if negb granted then
           modify (set_device_ None) >>
           throw (ContextAcquisitionFailed "GPU device")
         else
           let* d := new_object in
           modify (set_device_ (Some d)) >>
           if negb (getContext_webgpu P) then
             modify (set_context_ None) >>
             throw (ContextAcquisitionFailed "WebGPU context")
           else
             let* c := new_object in
             modify (set_context_ (Some c)) >>
             modify (set_format_ (Some (getPreferredCanvasFormat P))) >>
             gpu (GPU.configure c (Some d) (Some (getPreferredCanvasFormat P)) None) >>
             modify (set_isInitialized true) >>
             emit "initialized" [("device", VObject);
                                 ("format", VStr (getPreferredCanvasFormat P))] >>
             ret true)
      (fun error =>
         console_error "Failed to initialize WGPURenderer:" error >>
         emit "error" [("error", VErr error)] >>
         throw error).

Definition destroyBuffer (name : string) : M State unit :=
  let* found := gets (fun s => buffers_ s !! name) in
  match found with
  | Some bufferMetadata =>
      gpu (GPU.destroyBuffer (buffer bufferMetadata)) >>
      modify (fun s => set_buffers_ (delete name (buffers_ s)) s) >>
      emit "bufferDestroyed" [("name", VStr name)]
  | None => ret tt
  end.

Definition destroyPipeline (name : string) : M State unit :=
  modify (fun s => set_pipelines_ (delete name (pipelines_ s)) s) >>
  emit "pipelineDestroyed" [("name", VStr name)].

Definition destroyTexture (name : string) : M State unit :=
  let* found := gets (fun s => textures_ s !! name) in
  match found with
  | Some textureMetadata =>
      gpu (GPU.destroyTexture (texture textureMetadata)) >>
      modify (fun s => set_textures_ (delete name (textures_ s)) s) >>
      emit "textureDestroyed" [("name", VStr name)]
  | None => ret tt
  end.

(** The [forEach] loops visit the registries in the order [map_to_list]
    enumerates them. *)
Definition destroy : M State unit :=
  let* buffers := gets buffers_ in
  for_each (map_to_list buffers) (fun '(name, metadata) =>
    gpu (GPU.destroyBuffer (buffer metadata)) >>
    emit "bufferDestroyed" [("name", VStr name)]) >>
  modify (set_buffers_ ∅) >>
  let* textures := gets textures_ in
  for_each (map_to_list textures) (fun '(name, metadata) =>
    gpu (GPU.destroyTexture (texture metadata)) >>
    emit "textureDestroyed" [("name", VStr name)]) >>
  modify (set_textures_ ∅) >>
  let* renderTargets := gets renderTargets_ in
  for_each (map_to_list renderTargets) (fun '(name, metadata) =>
    gpu (GPU.destroyTexture (texture metadata)) >>
    emit "renderTargetDestroyed" [("name", VStr name)]) >>
  modify (set_renderTargets_ ∅) >>
  modify (set_pipelines_ ∅) >>
  modify (set_computePipelines_ ∅) >>
  modify (set_samplers_ ∅) >>
  modify (set_bindGroups_ ∅) >>
  modify (set_shaderModules_ ∅) >>
  modify (set_device_ None) >>
  modify (set_context_ None) >>
  modify (set_isInitialized false) >>
  emit "destroyed" [].

Definition updateBuffer (name : string) (data : BufferSource) (offset : option Z)
  : M State unit :=
  let offset := match offset with Some o => o | None => 0 end in
  let* ready := gets isInitialized in
  if negb ready then throw NotInitialized
  else
    let* found := gets (fun s => buffers_ s !! name) in
    match found with
    | None => throw (NotFound "Buffer" name)
    | Some bufferMetadata =>
        let dataToWrite := underlying data in
        (if offset + byteLength dataToWrite >? size bufferMetadata
         then console_warn "Buffer too small for update. Consider recreating." name
         else ret tt) >>
        device >>
        gpu (GPU.writeBuffer (buffer bufferMetadata) offset (byteLength dataToWrite)) >>
        emit "bufferUpdated"
          [("name", VStr name); ("offset", VNum offset);
           ("size", VNum (byteLength dataToWrite))]
    end.

Definition createTexture (config : TextureConfig) : M State handle :=
  let* ready := gets isInitialized in
  if negb ready then throw NotInitialized
  else
    let fmt := JS.or_str (tc_format config) "rgba8unorm" in
    let us := JS.or_num (tc_usage config)
                (Z.lor GPU.TEXTURE_BINDING GPU.TEXTURE_COPY_DST) in
    let* t := device_create (fun t =>
                GPU.createTexture t (tc_width config) (tc_height config)
                  (Some fmt) us 1) in
    let* v := new_object in
    gpu (GPU.createView t v) >>
    modify (fun s =>
      set_textures_
        (<[tc_name config :=
             MkTextureMetadata t v (tc_width config) (tc_height config)
               (Some fmt) us None]> (textures_ s)) s) >>
    emit "textureCreated"
      [("name", VStr (tc_name config));
       ("width", VNum (tc_width config));
       ("height", VNum (tc_height config))] >>
    ret t.

(** [width && height && (width !== textureMetadata.width ||
    height !== textureMetadata.height)], as a boolean. *)
Definition needsResize (textureMetadata : TextureMetadata)
  (width height : option Z) : bool :=
  JS.truthy width && JS.truthy height &&
  (negb (bool_decide (width = Some (WGPURenderer.width textureMetadata)))
   || negb (bool_decide (height = Some (WGPURenderer.height textureMetadata)))).

Definition updateTexture (name : string) (data_bytes : Z)
  (width height : option Z) : M State unit :=
  let* found := gets (fun s => textures_ s !! name) in
  match found with
  | None => throw (NotFound "Texture" name)
  | Some textureMetadata =>
      let* textureMetadata :=
        if needsResize textureMetadata width height then
          destroyTexture name >>
          createTexture
            {| tc_name := name;
               tc_width := default 0 width;
               tc_height := default 0 height;
               tc_format := format textureMetadata;
               tc_usage := Some (textureUsage textureMetadata) |} >>
          let* renewed := gets (fun s => textures_ s !! name) in
          match renewed with
          | None => throw (TypeError "newMetadata")
          | Some newMetadata =>
              ret (MkTextureMetadata (texture newMetadata) (view newMetadata)
                     (default 0 width) (default 0 height)
                     (format textureMetadata) (textureUsage textureMetadata)
                     (sampleCount textureMetadata))
          end
        else ret textureMetadata in
      let targetWidth := JS.or_num width (WGPURenderer.width textureMetadata) in
      let targetHeight := JS.or_num height (WGPURenderer.height textureMetadata) in
      device >>
      gpu (GPU.writeTexture (texture textureMetadata) (targetWidth * 4)
             targetWidth targetHeight) >>
      emit "textureUpdated"
        [("name", VStr name); ("width", VNum targetWidth);
         ("height", VNum targetHeight)]
  end.

Definition createBindGroupLayout (name : string) : M State handle :=
  let* l := device_create (fun l => GPU.createBindGroupLayout l name) in
  modify (fun s => set_bindGroupLayouts_ (<[name := l]> (bindGroupLayouts_ s)) s) >>
  ret l.

Definition createBindGroup (config : BindGroupConfig) : M State BindGroup :=
  let* ready := gets isInitialized in
  if negb ready then throw NotInitialized
  else
    let* current := gets currentPipeline_ in
    if negb (JS.truthy_str current) then throw NoPipelineSet
    else
      let* found := gets (fun s => pipelines_ s !! default "" current) in
      match found with
      | None => throw (TypeError "pipeline")
      | Some pipeline =>
          let l := GPU.getBindGroupLayout pipeline 0 in
          let* g := device_create (fun g =>
                      GPU.createBindGroup g l (gc_entries config)) in
          let bg := MkBindGroup g l (gc_entries config) in
          modify (fun s => set_bindGroups_ (<[gc_name config := bg]> (bindGroups_ s)) s) >>
          emit "bindGroupCreated" [("name", VStr (gc_name config))] >>
          ret bg
      end.

Definition setBindGroup (bindGroupName : string) (index : option Z) : M State unit :=
  let index := match index with Some i => i | None => 0 end in
  let* found := gets (fun s => bindGroups_ s !! bindGroupName) in
  match found with
  | None => throw (NotFound "Bind group" bindGroupName)
  | Some bg =>
      modify (fun s => set_currentBindGroups_ (<[index := bg]> (currentBindGroups_ s)) s)
  end.

Definition createDepthStencilTexture : M State unit :=
  let* c := gets canvas in
  let* samples := gets msaaSampleCount_ in
  let* t := device_create (fun t =>
              GPU.createTexture t (Canvas.width c) (Canvas.height c)
                (Some "depth24plus-stencil8") GPU.RENDER_ATTACHMENT samples) in
  let* v := new_object in
  gpu (GPU.createView t v) >>
  modify (set_depthStencilTexture_
            (Some (MkTextureMetadata t v (Canvas.width c) (Canvas.height c)
                     (Some "depth24plus-stencil8") GPU.RENDER_ATTACHMENT None))).

Definition createMSAATexture : M State unit :=
  let* samples := gets msaaSampleCount_ in
  if samples <=? 1 then ret tt
  else
    let* existing := gets msaaTexture_ in
    match existing with
    | Some old => gpu (GPU.destroyTexture (texture old))
    | None => ret tt
    end >>
    let* fmt := gets format_ in
    let* c := gets canvas in
    let* t := device_create (fun t =>
                GPU.createTexture t (Canvas.width c) (Canvas.height c)
                  fmt GPU.RENDER_ATTACHMENT samples) in
    let* v := new_object in
    gpu (GPU.createView t v) >>
    modify (set_msaaTexture_
              (Some (MkTextureMetadata t v (Canvas.width c) (Canvas.height c)
                       fmt GPU.RENDER_ATTACHMENT (Some samples)))).

Definition createSampler (config : SamplerConfig) : M State handle :=
  let* ready := gets isInitialized in
  if negb ready then throw NotInitialized
  else
    let* sampler := device_create (fun h =>
      GPU.createSampler h
        (JS.or_str (sc_addressModeU config) "clamp-to-edge")
        (JS.or_str (sc_addressModeV config) "clamp-to-edge")
        (JS.or_str (sc_addressModeW config) "clamp-to-edge")
        (JS.or_str (sc_magFilter config) "linear")
        (JS.or_str (sc_minFilter config) "linear")) in
    modify (fun s => set_samplers_ (<[sc_name config := sampler]> (samplers_ s)) s) >>
    emit "samplerCreated" [("name", VStr (sc_name config))] >>
    ret sampler.

Definition createBuffer (config : BufferConfig) : M State handle :=
  let* ready := gets isInitialized in
  if negb ready then throw NotInitialized
  else if negb (JS.truthy_str (bc_name config)) then throw (InvalidConfig "name")
  else
    match bc_data config with
    | None => throw (InvalidConfig "data")
    | Some data =>
        if negb (JS.truthy (bc_usage config)) then throw (InvalidConfig "usage flags")
        else
          let name := default "" (bc_name config) in
          let us := default 0 (bc_usage config) in
          let* b := device_create (fun b => GPU.createBuffer b (byteLength data) us) in
          gpu (GPU.unmap b) >>
          modify (fun s =>
            set_buffers_
              (<[name := MkBufferMetadata b (byteLength data) us (bc_indexFormat config)]>
                 (buffers_ s)) s) >>
          emit "bufferCreated"
            [("name", VStr name); ("size", VNum (byteLength data));
             ("usage", VNum us)] >>
          ret b
    end.

Definition createRenderTarget (config : RenderTargetConfig) : M State handle :=
  let* ready := gets isInitialized in
  if negb ready then throw NotInitialized
  else
    let fmt := JS.or_str (rc_format config) "rgba8unorm" in
    let us := Z.lor GPU.RENDER_ATTACHMENT GPU.TEXTURE_BINDING in
    let samples := JS.or_num (rc_sampleCount config) 1 in
    let* t := device_create (fun t =>
                GPU.createTexture t (rc_width config) (rc_height config)
                  (Some fmt) us samples) in
    let* v := new_object in
    gpu (GPU.createView t v) >>
    modify (fun s =>
      set_renderTargets_
        (<[rc_name config :=
             MkTextureMetadata t v (rc_width config) (rc_height config)
               (Some fmt) us (Some samples)]> (renderTargets_ s)) s) >>
    emit "renderTargetCreated"
      [("name", VStr (rc_name config));
       ("width", VNum (rc_width config));
       ("height", VNum (rc_height config))] >>
    ret t.

(** [name] is [None] for null; the empty string is falsy like null. *)
Definition setRenderTarget (name : option string) : M State unit :=
  let* targets := gets renderTargets_ in
  let found := match name with Some n => targets !! n | None => None end in
  if JS.truthy_str name && negb (JS.defined found) then
    throw (NotFound "Render target" (default "" name))
  else modify (set_currentRenderTarget_ name).

Definition setBlendState (enabled : bool) (config : BlendConfig) : M State unit :=
  modify (set_blendEnabled_ enabled) >>
  modify (set_blendState_ (Some
    {| GPU.color :=
         {| GPU.srcFactor := JS.or_str (bl_srcFactor config) "src-alpha";
            GPU.dstFactor := JS.or_str (bl_dstFactor config) "one-minus-src-alpha";
            GPU.operation := JS.or_str (bl_colorOperation config) "add" |};
       GPU.alpha :=
         {| GPU.srcFactor := JS.or_str (bl_alphaSrcFactor config) "one";
            GPU.dstFactor := JS.or_str (bl_alphaDstFactor config) "one-minus-src-alpha";
            GPU.operation := JS.or_str (bl_alphaOperation config) "add" |} |})).

Definition setDepthState (enabled : bool) (config : DepthConfig) : M State unit :=
  modify (set_depthEnabled_ enabled) >>
  modify (set_depthStencilState_ (Some
    {| GPU.depthWriteEnabled := JS.not_false (dp_depthWriteEnabled config);
       GPU.depthCompare := JS.or_str (dp_compare config) "less";
       GPU.depthFormat := "depth24plus-stencil8" |})) >>
  let* existing := gets depthStencilTexture_ in
  if enabled && negb (JS.defined existing)
  then createDepthStencilTexture
  else ret tt.

Definition setCullMode (mode : string) : M State unit :=
  modify (set_cullMode_ mode).

Definition getShaderModule_ (code : string) : M State handle :=
  let* cached := gets (fun s => shaderModules_ s !! code) in
  match cached with
  | Some m => ret m
  | None =>
      let* m := device_create (fun m => GPU.createShaderModule m code) in
      modify (fun s => set_shaderModules_ (<[code := m]> (shaderModules_ s)) s) >>
      ret m
  end.

Definition beginFrame : M State unit :=
  modify (fun s => set_frameCount_ (frameCount_ s + 1) s).

Definition setVertexBuffer (slot : Z) (bufferName : string) (offset : option Z)
  : M State unit :=
  let offset := match offset with Some o => o | None => 0 end in
  let* found := gets (fun s => buffers_ s !! bufferName) in
  match found with
  | Some bufferMetadata =>
      modify (fun s =>
        set_currentVertexBuffers_
          (<[slot := (buffer bufferMetadata, offset)]> (currentVertexBuffers_ s)) s)
  | None => console_warn "Vertex buffer not found." bufferName
  end.

Definition createComputePipeline (name computeShader : string) : M State handle :=
  let* ready := gets isInitialized in
  if negb ready then throw NotInitialized
  else
    let* shaderModule := getShaderModule_ computeShader in
    let* pipeline := device_create (fun p => GPU.createComputePipeline p shaderModule) in
    modify (fun s => set_computePipelines_ (<[name := pipeline]> (computePipelines_ s)) s) >>
    emit "computePipelineCreated" [("name", VStr name)] >>
    ret pipeline.

(** The [setBindGroup] commands of a pass: the entries whose bind group
    name is registered, in the order of the entries. *)
Definition bound_groups (groups : gmap string BindGroup)
  (requested : option (list (Z * string))) : list GPU.PassCommand :=
  omap (fun '(index, bindGroupName) =>
          match groups !! bindGroupName with
          | Some bg => Some (GPU.setBindGroup index (bindGroup bg))
          | None => None
          end) (default [] requested).

(** The [setVertexBuffer] commands of a pass. *)
Definition bound_vertex_buffers (buffers : gmap string BufferMetadata)
  (requested : option (list (Z * string))) : list GPU.PassCommand :=
  omap (fun '(slot, bufferName) =>
          match buffers !! bufferName with
          | Some bufferMetadata => Some (GPU.setVertexBuffer slot (buffer bufferMetadata))
          | None => None
          end) (default [] requested).

Definition dispatchCompute (pipelineName : string) (config : DispatchConfig)
  : M State unit :=
  let* found := gets (fun s => computePipelines_ s !! pipelineName) in
  match found with
  | None => throw (NotFound "Compute pipeline" pipelineName)
  | Some pipeline =>
      device >>
      let* groups := gets bindGroups_ in
      gpu (GPU.submitComputePass
             ([GPU.setPipeline pipeline]
              ++ bound_groups groups (dp_bindGroups config)
              ++ [GPU.dispatchWorkgroups (workgroupCountX config)
                    (JS.or_num (workgroupCountY config) 1)
                    (JS.or_num (workgroupCountZ config) 1)])) >>
      emit "computeDispatched"
        [("pipelineName", VStr pipelineName);
         ("workgroupCountX", VNum (workgroupCountX config));
         ("workgroupCountY", from_option VNum VUndefined (workgroupCountY config));
         ("workgroupCountZ", from_option VNum VUndefined (workgroupCountZ config))]
  end.

Definition createPipeline (name : string) (config : PipelineConfig) : M State handle :=
  let* ready := gets isInitialized in
  if negb ready then throw NotInitialized
  else
    let shaderCode :=
      vertex (pc_shaders config) +:+ String (Ascii.ascii_of_nat 10) ""
        +:+ fragment (pc_shaders config) in
    let* shaderModule := getShaderModule_ shaderCode in
    let* explicit :=
      match pc_bindGroupLayouts config with
      | Some layouts =>
          let* l := device_create (fun l => GPU.createPipelineLayout l layouts) in
          ret (Some l)
      | None => ret None
      end in
    let* s := gets id in
    let descriptor :=
      {| GPU.explicit_layout := explicit;
         GPU.module := shaderModule;
         GPU.target_format := format_ s;
         GPU.blend := if blendEnabled_ s then blendState_ s else None;
         GPU.topology :=
           match pc_primitive config with
           | Some {| pr_topology := Some t |} => t
           | _ => "triangle-list"
           end;
         GPU.cullMode :=
           match pc_primitive config with
           | Some {| pr_cullMode := Some m |} => m
           | _ => cullMode_ s
           end;
         GPU.depthStencil :=
           if depthEnabled_ s then
             match pc_depthStencil config with
             | Some d => Some d
             | None => depthStencilState_ s
             end
           else None;
         GPU.multisample_count := msaaSampleCount_ s |} in
    let* pipeline := device_create (fun p => GPU.createRenderPipeline p descriptor) in
    modify (fun s => set_pipelines_ (<[name := pipeline]> (pipelines_ s)) s) >>
    emit "pipelineCreated"
      [("name", VStr name); ("config", VObject);
       ("hasExplicitLayout", VBool (JS.defined (pc_bindGroupLayouts config)))] >>
    ret pipeline.

Definition setClearColor (c : Color) : M State unit :=
  modify (set_clearColor_ c).

Definition setPipeline (name : string) : M State unit :=
  let* pipelines := gets pipelines_ in
  if JS.defined (pipelines !! name) then
    modify (set_currentPipeline_ (Some name)) >>
    emit "pipelineSet" [("name", VStr name)]
  else ret tt.

Definition setMSAA (enabled : bool) : M State bool :=
  let* ready := gets isInitialized in
  if negb ready then
    console_warn "Renderer not initialized. Call initialize() first." "" >>
    ret false
  else
    modify (set_msaaSampleCount_ (if enabled then 4 else 1)) >>
    let* samples := gets msaaSampleCount_ in
    let* existing := gets msaaTexture_ in
    (if samples >? 1 then createMSAATexture
     else
       match existing with
       | Some old =>
           gpu (GPU.destroyTexture (texture old)) >>
           modify (set_msaaTexture_ None)
       | None => ret tt
       end) >>
    emit "msaaChanged" [("samples", VNum samples)] >>
    ret true.

(** [this.context_.getCurrentTexture().createView()] *)
Definition current_texture_view : M State GPU.View :=
  fun s =>
    match context_ s with
    | None => (Throw (TypeError "context_"), s)
    | Some _ => (Normal GPU.currentTextureView, s)
    end.

(** [<metadata>.view] of a possibly missing metadata object. *)
Definition view_of (receiver : string) (m : option TextureMetadata) : M State GPU.View :=
  match m with
  | Some metadata => ret (GPU.textureView (view metadata))
  | None => throw (TypeError receiver)
  end.

Definition render (drawCall : DrawCall) : M State unit :=
  beginFrame >>
  let* ready := gets isInitialized in
  if negb ready then
    console_warn "Renderer not initialized. Call initialize() first." ""
  else
    let* current := gets currentPipeline_ in
    if negb (JS.truthy_str current) then throw NoPipelineSet
    else
      device >>
      let* s := gets id in
      let target := JS.truthy_str (currentRenderTarget_ s) in
      let msaa := msaaSampleCount_ s >? 1 in
      let* colorView :=
        if target then
          view_of "renderTarget"
            (renderTargets_ s !! default "" (currentRenderTarget_ s))
        else if msaa then view_of "msaaTexture_" (msaaTexture_ s)
        else current_texture_view in
      let* resolve :=
        if msaa && negb target
        then let* v := current_texture_view in ret (Some v)
        else ret None in
      let* resolve :=
        if target && msaa then
          match renderTargets_ s !! default "" (currentRenderTarget_ s) with
          | None => throw (TypeError "rtMetadata")
          | Some rtMetadata =>
              if JS.or_num (sampleCount rtMetadata) 0 >? 1 then ret None
              else ret resolve
          end
        else ret resolve in
      let descriptor :=
        {| GPU.view := colorView;
           GPU.resolveTarget := resolve;
           GPU.clearValue := clearColor_ s;
           GPU.storeOp := if msaa then "discard" else "store";
           GPU.depthStencilView :=
             if depthEnabled_ s
             then view <$> depthStencilTexture_ s
             else None;
           GPU.depthClearValue := clearDepth_ s;
           GPU.stencilClearValue := clearStencil_ s |} in
      match pipelines_ s !! default "" current with
      | None => throw (TypeError "pipeline")
      | Some pipeline =>
          let indexBuffer :=
            if JS.truthy_str (dc_indexBuffer drawCall)
            then buffers_ s !! default "" (dc_indexBuffer drawCall)
            else None in
          let drawCommands :=
            match indexBuffer with
            | Some bufferMetadata =>
                [GPU.setIndexBuffer (buffer bufferMetadata)
                   (JS.or_str (indexFormat bufferMetadata) "uint16");
                 GPU.drawIndexed
                   (JS.or_num (dc_indexCount drawCall) 0)
                   (JS.or_num (dc_instanceCount drawCall) 1)
                   (JS.or_num (dc_firstIndex drawCall) 0)
                   (JS.or_num (dc_baseVertex drawCall) 0)
                   (JS.or_num (dc_firstInstance drawCall) 0)]
            | None =>
                if JS.truthy (dc_vertexCount drawCall) then
                  [GPU.draw
                     (default 0 (dc_vertexCount drawCall))
                     (JS.or_num (dc_instanceCount drawCall) 1)
                     (JS.or_num (dc_firstVertex drawCall) 0)
                     (JS.or_num (dc_firstInstance drawCall) 0)]
                else []
            end in
          gpu (GPU.submitRenderPass descriptor
                 ([GPU.setPipeline pipeline]
                  ++ bound_vertex_buffers (buffers_ s) (dc_vertexBuffers drawCall)
                  ++ bound_groups (bindGroups_ s) (dc_bindGroups drawCall)
                  ++ drawCommands)) >>
          emit "frameRendered"
            [("frameCount", VNum (frameCount_ s)); ("drawCall", VObject)]
      end.

Definition setSize (width height : Z) : M State unit :=
  let* ready := gets isInitialized in
  if negb ready then
    console_warn "Renderer not initialized. Call initialize() first." ""
  else
    let actualWidth := Z.max 1 width in
    let actualHeight := Z.max 1 height in
    let* s := gets id in
    match context_ s with
    | Some c =>
        gpu (GPU.configure c (device_ s) (format_ s)
               (Some (actualWidth, actualHeight)))
    | None => ret tt
    end >>
    (if msaaSampleCount_ s >? 1 then createMSAATexture else ret tt) >>
    match depthStencilTexture_ s with
    | Some old =>
        gpu (GPU.destroyTexture (texture old)) >>
        createDepthStencilTexture
    | None => ret tt
    end >>
    emit "resize" [("width", VNum actualWidth); ("height", VNum actualHeight)].

(** The getters read a registry; [None] is the [null] they return for an
    unregistered name. *)
Definition getBuffer (name : string) (s : State) : option handle :=
  match buffers_ s !! name with
  | Some metadata => Some (buffer metadata)
  | None => None
  end.

Definition getBufferMetadata (name : string) (s : State) : option BufferMetadata :=
  buffers_ s !! name.

Definition getPipeline (name : string) (s : State) : option handle :=
  pipelines_ s !! name.

Definition getTexture (name : string) (s : State) : option handle :=
  match textures_ s !! name with
  | Some metadata => Some (texture metadata)
  | None => None
  end.

Definition getTextureView (name : string) (s : State) : option handle :=
  match textures_ s !! name with
  | Some metadata => Some (view metadata)
  | None => None
  end.

Definition getTextureMetadata (name : string) (s : State) : option TextureMetadata :=
  textures_ s !! name.

Definition getSampler (name : string) (s : State) : option handle :=
  samplers_ s !! name.

Definition getMSAASampleCount (s : State) : Z := msaaSampleCount_ s.

Definition getBindGroup (name : string) (s : State) : option BindGroup :=
  bindGroups_ s !! name.

Definition getRenderTarget (name : string) (s : State) : option handle :=
  match renderTargets_ s !! name with
  | Some metadata => Some (texture metadata)
  | None => None
  end.

Definition getRenderTargetView (name : string) (s : State) : option handle :=
  match renderTargets_ s !! name with
  | Some metadata => Some (view metadata)
  | None => None
  end.

Definition getRenderTargetMetadata (name : string) (s : State)
  : option TextureMetadata :=
  renderTargets_ s !! name.

(** [metadata?.indexFormat || 'uint16'] *)
Definition getIndexFormat (bufferName : string) (s : State) : string :=
  JS.or_str (match buffers_ s !! bufferName with
             | Some metadata => indexFormat metadata
             | None => None
             end) "uint16".

(** A typed array: its constructor, its number of elements and the length
    of the [ArrayBuffer] it views. *)
Inductive ArrayType : Type :=
| Uint8Array
| Uint16Array
| Uint32Array
| Float32Array.

Record TypedArray : Type := MkTypedArray {
  arrayType : ArrayType;
  elements : Z;
  backing : Z
}.

Definition BYTES_PER_ELEMENT (t : ArrayType) : Z :=
  match t with
  | Uint8Array => 1
  | Uint16Array => 2
  | Uint32Array => 4
  | Float32Array => 4
  end.

Definition as_source (a : TypedArray) : BufferSource :=
  ArrayBufferView (elements a * BYTES_PER_ELEMENT (arrayType a)) (backing a).

(** The helpers that fix the usage flags of [createBuffer]. *)
Definition createIndexBuffer (name : option string) (indices : TypedArray)
  : M State handle :=
  let indexFormat :=
    match arrayType indices with
    | Uint32Array => "uint32"
    | _ => "uint16"
    end in
  createBuffer {| bc_name := name;
                  bc_data := Some (as_source indices);
                  bc_usage := Some (Z.lor GPU.INDEX GPU.BUFFER_COPY_DST);
                  bc_indexFormat := Some indexFormat |}.

Definition createVertexBuffer (name : option string) (vertices : BufferSource)
  : M State handle :=
  createBuffer {| bc_name := name;
                  bc_data := Some vertices;
                  bc_usage := Some (Z.lor GPU.VERTEX GPU.BUFFER_COPY_DST);
                  bc_indexFormat := None |}.

Definition createUniformBuffer (name : option string) (data : BufferSource)
  : M State handle :=
  createBuffer {| bc_name := name;
                  bc_data := Some data;
                  bc_usage := Some (Z.lor GPU.UNIFORM GPU.BUFFER_COPY_DST);
                  bc_indexFormat := None |}.

End WGPURenderer.

(** ** The listener registry

    [on], [off] and [emit] are the same code in [WGLRenderer] and
    [WGPURenderer].  [eventListeners_] maps an event name to a [Set] of
    callbacks, kept here as the list of its members in insertion order.  A
    callback is identified by its function object; what a call of it does
    (return, or throw an error) is given by [behaviour].  Callbacks do not
    call back into the registry. *)

Module EventEmitter.

Definition callback := nat.

Record State : Type := MkState {
  eventListeners_ : gmap string (list callback);
  invoked : list (callback * list (string * Value));
  console : list Console
}.

Definition new : State :=
  {| eventListeners_ := ∅; invoked := []; console := [] |}.

Definition set_eventListeners_ (m : gmap string (list callback)) (s : State) : State :=
  MkState m (invoked s) (console s).

(** [set.add(x)]: a member keeps its place. *)
Definition Set_add (x : callback) (set : list callback) : list callback :=
  if bool_decide (x ∈ set) then set else set ++ [x].

(** [set.delete(x)] *)
Definition Set_delete (x : callback) (set : list callback) : list callback :=
  filter (fun y => y <> x) set.

Definition on (event : string) (cb : callback) : M State unit :=
  let* listeners := gets eventListeners_ in
  when (negb (JS.defined (listeners !! event)))
    (modify (fun s => set_eventListeners_ (<[event := []]> (eventListeners_ s)) s)) >>
  let* listeners := gets eventListeners_ in
  match listeners !! event with
  | Some set =>
      modify (fun s =>
        set_eventListeners_ (<[event := Set_add cb set]> (eventListeners_ s)) s)
  | None => throw (TypeError "eventListeners_.get(event)")
  end.

Definition off (event : string) (cb : callback) : M State unit :=
  let* listeners := gets eventListeners_ in
  match listeners !! event with
  | Some set =>
      modify (fun s =>
        set_eventListeners_ (<[event := Set_delete cb set]> (eventListeners_ s)) s)
  | None => ret tt
  end.

(** [callback(data)] inside [try ... catch]. *)
Definition call (behaviour : callback -> list (string * Value) -> option Error)
  (event : string) (d : list (string * Value)) (cb : callback) : M State unit :=
  try_catch
    (modify (fun s => MkState (eventListeners_ s) (invoked s ++ [(cb, d)]) (console s)) >>
     match behaviour cb d with
     | Some error => throw error
     | None => ret tt
     end)
    (fun error =>
       modify (fun s =>
         MkState (eventListeners_ s) (invoked s)
           (console s ++ [ErrorLine ("Error in event listener for " +:+ event +:+ ":") error]))).

Definition emit (behaviour : callback -> list (string * Value) -> option Error)
  (event : string) (d : list (string * Value)) : M State unit :=
  let* listeners := gets eventListeners_ in
  match listeners !! event with
  | Some set => for_each set (call behaviour event d)
  | None => ret tt
  end.

(** The callbacks registered for an event. *)
Definition listeners (event : string) (s : State) : list callback :=
  default [] (eventListeners_ s !! event).

End EventEmitter.

(** * Vocabulary of the statements *)

(** The context calls that apply the tracked render states of a WebGL
    renderer, in the order clear colour, depth test, blend, cull face. *)
Definition applied_render_states (s : WGLRenderer.State) : list GL.Call :=
  [GL.clearColor (red (WGLRenderer.clearColor_ s))
     (green (WGLRenderer.clearColor_ s))
     (blue (WGLRenderer.clearColor_ s))
     (alpha_ (WGLRenderer.clearColor_ s))]
  ++ (if WGLRenderer.depthTestEnabled_ s
      then [GL.enable GL.DEPTH_TEST; GL.depthFunc GL.LESS]
      else [GL.disable GL.DEPTH_TEST])
  ++ (if WGLRenderer.blendEnabled_ s
      then [GL.enable GL.BLEND;
            GL.blendFunc
              (JS.or_num (WGLRenderer.src (WGLRenderer.blendFunc_ s)) GL.SRC_ALPHA)
              (JS.or_num (WGLRenderer.dst (WGLRenderer.blendFunc_ s))
                 GL.ONE_MINUS_SRC_ALPHA)]
      else [GL.disable GL.BLEND])
  ++ (if WGLRenderer.cullFaceEnabled_ s
      then [GL.enable GL.CULL_FACE; GL.cullFace (WGLRenderer.cullFaceMode_ s)]
      else [GL.disable GL.CULL_FACE]).




(** A registered texture as [createTexture] leaves it: its format and
    usage are truthy and its handle was handed out by the platform. *)
Definition texture_ok (s : WGPURenderer.State)
  (tm : WGPURenderer.TextureMetadata) : Prop :=
  JS.truthy_str (WGPURenderer.format tm) = true
  /\ WGPURenderer.textureUsage tm <> 0
  /\ (WGPURenderer.texture tm < WGPURenderer.next_object s)%nat.


Definition wgpu_same_resources (s s' : WGPURenderer.State) : Prop :=
  WGPURenderer.isInitialized s' = WGPURenderer.isInitialized s
  /\ WGPURenderer.buffers_ s' = WGPURenderer.buffers_ s
  /\ WGPURenderer.textures_ s' = WGPURenderer.textures_ s
  /\ WGPURenderer.renderTargets_ s' = WGPURenderer.renderTargets_ s.


(** The registries of a destroyed WebGPU renderer. *)
Definition wgpu_released (s : WGPURenderer.State) : Prop :=
  WGPURenderer.buffers_ s = ∅
  /\ WGPURenderer.textures_ s = ∅
  /\ WGPURenderer.renderTargets_ s = ∅
  /\ WGPURenderer.pipelines_ s = ∅
  /\ WGPURenderer.computePipelines_ s = ∅
  /\ WGPURenderer.samplers_ s = ∅
  /\ WGPURenderer.bindGroups_ s = ∅
  /\ WGPURenderer.shaderModules_ s = ∅
  /\ WGPURenderer.isInitialized s = false
  /\ WGPURenderer.device_ s = None.

(** * Call sequences on a WebGPU renderer *)

(** The public methods, with their arguments, and the caller's own
    assignment to the canvas size. *)
Inductive Call : Type :=
| Initialize (P : GPUPlatform)
| DestroyBuffer (name : string)
| DestroyPipeline (name : string)
| DestroyTexture (name : string)
| Destroy
| UpdateBuffer (name : string) (data : BufferSource) (offset : option Z)
| UpdateTexture (name : string) (bytes : Z) (width height : option Z)
| CreateBindGroupLayout (name : string)
| CreateBindGroup (config : WGPURenderer.BindGroupConfig)
| SetBindGroup (name : string) (index : option Z)
| CreateTexture (config : WGPURenderer.TextureConfig)
| CreateSampler (config : WGPURenderer.SamplerConfig)
| CreateBuffer (config : WGPURenderer.BufferConfig)
| CreateRenderTarget (config : WGPURenderer.RenderTargetConfig)
| SetRenderTarget (name : option string)
| SetBlendState (enabled : bool) (config : WGPURenderer.BlendConfig)
| SetDepthState (enabled : bool) (config : WGPURenderer.DepthConfig)
| SetCullMode (mode : string)
| SetVertexBuffer (slot : Z) (name : string) (offset : option Z)
| CreateComputePipeline (name computeShader : string)
| DispatchCompute (name : string) (config : WGPURenderer.DispatchConfig)
| CreatePipeline (name : string) (config : WGPURenderer.PipelineConfig)
| SetClearColor (c : Color)
| SetPipeline (name : string)
| SetMSAA (enabled : bool)
| Render (drawCall : WGPURenderer.DrawCall)
| SetSize (width height : Z)
| BeginFrame
| ResizeCanvas (width height : Z).

(** The renderer after a call, whether the call returned or threw. *)
Definition exec (c : Call) (s : WGPURenderer.State) : WGPURenderer.State :=
  match c with
  | Initialize P => after (WGPURenderer.initialize P s)
  | DestroyBuffer name => after (WGPURenderer.destroyBuffer name s)
  | DestroyPipeline name => after (WGPURenderer.destroyPipeline name s)
  | DestroyTexture name => after (WGPURenderer.destroyTexture name s)
  | Destroy => after (WGPURenderer.destroy s)
  | UpdateBuffer name data offset =>
      after (WGPURenderer.updateBuffer name data offset s)
  | UpdateTexture name bytes w h =>
      after (WGPURenderer.updateTexture name bytes w h s)
  | CreateBindGroupLayout name => after (WGPURenderer.createBindGroupLayout name s)
  | CreateBindGroup config => after (WGPURenderer.createBindGroup config s)
  | SetBindGroup name index => after (WGPURenderer.setBindGroup name index s)
  | CreateTexture config => after (WGPURenderer.createTexture config s)
  | CreateSampler config => after (WGPURenderer.createSampler config s)
  | CreateBuffer config => after (WGPURenderer.createBuffer config s)
  | CreateRenderTarget config => after (WGPURenderer.createRenderTarget config s)
  | SetRenderTarget name => after (WGPURenderer.setRenderTarget name s)
  | SetBlendState enabled config => after (WGPURenderer.setBlendState enabled config s)
  | SetDepthState enabled config => after (WGPURenderer.setDepthState enabled config s)
  | SetCullMode mode => after (WGPURenderer.setCullMode mode s)
  | SetVertexBuffer slot name offset =>
      after (WGPURenderer.setVertexBuffer slot name offset s)
  | CreateComputePipeline name code =>
      after (WGPURenderer.createComputePipeline name code s)
  | DispatchCompute name config => after (WGPURenderer.dispatchCompute name config s)
  | CreatePipeline name config => after (WGPURenderer.createPipeline name config s)
  | SetClearColor c => after (WGPURenderer.setClearColor c s)
  | SetPipeline name => after (WGPURenderer.setPipeline name s)
  | SetMSAA enabled => after (WGPURenderer.setMSAA enabled s)
  | Render drawCall => after (WGPURenderer.render drawCall s)
  | SetSize w h => after (WGPURenderer.setSize w h s)
  | BeginFrame => after (WGPURenderer.beginFrame s)
  | ResizeCanvas w h => WGPURenderer.set_canvas (Canvas.Mk w h) s
  end.

(** A call the lifecycle allows: [initialize] is for a renderer that is
    not initialized (constructed, failed to initialize, or destroyed). *)
Definition allowed (c : Call) (s : WGPURenderer.State) : Prop :=
  match c with
  | Initialize _ => WGPURenderer.isInitialized s = false
  | _ => True
  end.

(** The states a renderer goes through from its construction. *)
Inductive reachable : WGPURenderer.State -> Prop :=
| reachable_new canvas : reachable (WGPURenderer.new canvas)
| reachable_exec c s : reachable s -> allowed c s -> reachable (exec c s).

(** What holds of every reachable state: an initialized renderer holds its
    device and context, and a registered texture belongs to an initialized
    renderer and is as [createTexture] leaves it. *)
Definition invariant (s : WGPURenderer.State) : Prop :=
  (WGPURenderer.isInitialized s = true ->
   is_Some (WGPURenderer.device_ s) /\ is_Some (WGPURenderer.context_ s))
  /\ (forall name tm,
        WGPURenderer.textures_ s !! name = Some tm ->
        WGPURenderer.isInitialized s = true /\ texture_ok s tm).

(** A call that touches neither the flag, the device, the context nor the
    textures, and hands out objects only forward. *)
Definition framed (s s' : WGPURenderer.State) : Prop :=
  WGPURenderer.isInitialized s' = WGPURenderer.isInitialized s
  /\ WGPURenderer.device_ s' = WGPURenderer.device_ s
  /\ WGPURenderer.context_ s' = WGPURenderer.context_ s
  /\ WGPURenderer.textures_ s' = WGPURenderer.textures_ s
  /\ (WGPURenderer.next_object s <= WGPURenderer.next_object s')%nat.

(** * Call sequences on a WebGL renderer *)







(** The flag and the context of a WebGL renderer are these. *)
Definition gl_lifecycle (flag : bool) (ctx : option ContextFamily)
  (s : WGLRenderer.State) : Prop :=
  WGLRenderer.isInitialized s = flag /\ WGLRenderer.context s = ctx.


(** * Concrete environments used in examples *)

Definition canvas0 : Canvas.t := Canvas.Mk 300 150.

Definition no_options : WGLRenderer.OptionsArg :=
  WGLRenderer.MkOptionsArg None None None None None None.

(** A browser that grants WebGL 1 and WebGL 2 contexts. *)
Definition browser_gl : GLPlatform :=
  {| probe_getContext := fun kind =>
       if bool_decide (kind = "webgl") then Some WebGLRenderingContext
       else if bool_decide (kind = "webgl2") then Some WebGL2RenderingContext
       else None;
     canvas_getContext := fun kind =>
       if bool_decide (kind = "webgl") then Some WebGLRenderingContext
       else if bool_decide (kind = "webgl2") then Some WebGL2RenderingContext
       else None;
     creation_fails := fun _ => false;
     shader_info_log := fun _ _ => None;
     program_info_log := fun _ _ => None;
     framebuffer_status := fun _ => GL.FRAMEBUFFER_COMPLETE |}.

(** A browser that grants a WebGPU adapter, device and context. *)
Definition browser_gpu : GPUPlatform :=
  {| has_navigator := true;
     has_gpu := true;
     has_GPUAdapter := true;
     has_GPUDevice := true;
     requestAdapter := Resolves true;
     requestDevice := Resolves true;
     getContext_webgpu := true;
     getPreferredCanvasFormat := "bgra8unorm" |}.


(** An initialized WebGPU renderer with no resources. *)
Definition gpu_ready : WGPURenderer.State :=
  after (WGPURenderer.initialize browser_gpu (WGPURenderer.new canvas0)).

Definition triangle_pipeline : WGPURenderer.PipelineConfig :=
  {| WGPURenderer.pc_shaders :=
       {| WGPURenderer.vertex := "fn vs_main() {}";
          WGPURenderer.fragment := "fn fs_main() {}" |};
     WGPURenderer.pc_primitive := None;
     WGPURenderer.pc_depthStencil := None;
     WGPURenderer.pc_bindGroupLayouts := None |}.

(** The same renderer after [createPipeline] and [setPipeline]. *)
Definition gpu_with_pipeline : WGPURenderer.State :=
  after (WGPURenderer.setPipeline "triangle"
    (after (WGPURenderer.createPipeline "triangle" triangle_pipeline gpu_ready))).

Definition draw_nothing : WGPURenderer.DrawCall :=
  WGPURenderer.MkDrawCall None None None None None None None None None None.

Definition draw_triangle : WGPURenderer.DrawCall :=
  WGPURenderer.MkDrawCall None None None None None None None None (Some 3) None.

(** A freshly constructed WebGL renderer, and one that is initialized. *)
Definition gl_fresh : WGLRenderer.State := WGLRenderer.new canvas0 no_options.

Definition gl_ready : WGLRenderer.State :=
  after (WGLRenderer.initialize browser_gl gl_fresh).

(** A browser that exposes the WebGPU globals but grants neither an
    adapter nor a canvas context. *)
Definition browser_gpu_globals_only : GPUPlatform :=
  {| has_navigator := true;
     has_gpu := true;
     has_GPUAdapter := true;
     has_GPUDevice := true;
     requestAdapter := Resolves false;
     requestDevice := Resolves false;
     getContext_webgpu := false;
     getPreferredCanvasFormat := "bgra8unorm" |}.

(** A browser whose probe canvas answers a WebGL 1 context to a request
    for WebGL 2. *)
Definition browser_fallback : GLPlatform :=
  {| probe_getContext := fun _ => Some WebGLRenderingContext;
     canvas_getContext := fun _ => Some WebGLRenderingContext;
     creation_fails := fun _ => false;
     shader_info_log := fun _ _ => None;
     program_info_log := fun _ _ => None;
     framebuffer_status := fun _ => GL.FRAMEBUFFER_COMPLETE |}.



(** The texture [createMSAATexture] allocates for a renderer in state [s]:
    the next two objects of the platform, sized to the canvas. *)
Definition msaa_target (s : WGPURenderer.State) : WGPURenderer.TextureMetadata :=
  {| WGPURenderer.texture := WGPURenderer.next_object s;
     WGPURenderer.view := S (WGPURenderer.next_object s);
     WGPURenderer.width := Canvas.width (WGPURenderer.canvas s);
     WGPURenderer.height := Canvas.height (WGPURenderer.canvas s);
     WGPURenderer.format := WGPURenderer.format_ s;
     WGPURenderer.textureUsage := GPU.RENDER_ATTACHMENT;
     WGPURenderer.sampleCount := Some 4 |}.

(** The call that destroys the multisample target held in state [s]. *)
Definition release_msaa (s : WGPURenderer.State) : list GPU.Call :=
  match WGPURenderer.msaaTexture_ s with
  | Some old => [GPU.destroyTexture (WGPURenderer.texture old)]
  | None => []
  end.

(** The initialized WebGPU renderer after [setMSAA(true)]. *)
Definition gpu_msaa : WGPURenderer.State :=
  after (WGPURenderer.setMSAA true gpu_ready).







Definition quad_buffer : WGLRenderer.BufferConfig :=
  {| WGLRenderer.bc_name := "quad";
     WGLRenderer.bc_data := ArrayBuffer 4;
     WGLRenderer.bc_usage := None;
     WGLRenderer.bc_type := None |}.

(** The initialized WebGL renderer after [createBuffer] of 4 bytes. *)
Definition gl_buffered : WGLRenderer.State :=
  after (WGLRenderer.createBuffer browser_gl quad_buffer gl_ready).



(** * Properties *)

(** ** Running a method *)

Lemma bind_normal {S A B} (m : M S A) (k : A -> M S B) s a s' :
  m s = (Normal a, s') -> bind m k s = k a s'.
Proof. intros H. unfold bind. now rewrite H. Qed.

Lemma bind_throw {S A B} (m : M S A) (k : A -> M S B) s e s' :
  m s = (Throw e, s') -> bind m k s = (Throw e, s').
Proof. intros H. unfold bind. now rewrite H. Qed.

Lemma count_event_app name (l1 l2 : list Event) :
  count_event name (l1 ++ l2) = (count_event name l1 + count_event name l2)%nat.
Proof. unfold count_event. now rewrite filter_app, length_app. Qed.

Lemma count_event_emit name (log : list Event) d :
  count_event name (log ++ [MkEvent name d]) = S (count_event name log).
Proof.
  rewrite count_event_app. unfold count_event at 2.
  rewrite filter_cons_True by done. simpl. lia.
Qed.

(** Unfold the monad and the small helpers of a renderer. *)
Ltac run :=
  cbv [bind ret throw gets modify try_catch when result after
       WGLRenderer.emit WGLRenderer.console_warn WGLRenderer.console_error
       WGLRenderer.gl WGLRenderer.gl_const WGLRenderer.gl_new
       WGPURenderer.emit WGPURenderer.console_warn WGPURenderer.console_error
       WGPURenderer.gpu WGPURenderer.device WGPURenderer.new_object
       WGPURenderer.device_create WGPURenderer.await] in *;
  cbn [fst snd] in *.


Example wgl_initialize_example :
  result (WGLRenderer.initialize browser_gl (WGLRenderer.new canvas0 no_options))
  = Normal true.
Proof. vm_compute. reflexivity. Qed.

Example wgpu_initialize_example :
  WGPURenderer.calls
    (after (WGPURenderer.initialize browser_gpu (WGPURenderer.new canvas0)))
  = [GPU.configure 1%nat (Some 0%nat) (Some "bgra8unorm") None].
Proof. vm_compute. reflexivity. Qed.

(** Evaluate a method on a renderer given field by field: the monad, the
    field updates and the field reads are unfolded; lookups, platform
    answers and string tests are left for the proof to decide. *)
Ltac wgl_eval :=
  cbv [
       bind ret throw gets modify try_catch when result after fst snd negb andb
       orb from_option id JS.defined Canvas.width Canvas.height for_each
       WGLRenderer.emit WGLRenderer.console_warn WGLRenderer.console_error
       WGLRenderer.gl WGLRenderer.gl_const WGLRenderer.gl_new
       WGLRenderer.gl_create WGLRenderer.set_canvas WGLRenderer.set_context
       WGLRenderer.set_isInitialized WGLRenderer.set_programs_
       WGLRenderer.set_buffers_ WGLRenderer.set_textures_
       WGLRenderer.set_framebuffers_ WGLRenderer.set_currentProgram_
       WGLRenderer.set_clearColor_ WGLRenderer.set_frameCount_
       WGLRenderer.set_currentFramebuffer_ WGLRenderer.set_blendEnabled_
       WGLRenderer.set_depthTestEnabled_ WGLRenderer.set_cullFaceEnabled_
       WGLRenderer.set_cullFaceMode_ WGLRenderer.set_depthFunc_
       WGLRenderer.set_VAOs_ WGLRenderer.set_currentVAO_ WGLRenderer.set_calls
       WGLRenderer.set_emitted WGLRenderer.set_console
       WGLRenderer.set_next_object WGLRenderer.set_initial_state
       WGLRenderer.arg_alpha WGLRenderer.arg_depth WGLRenderer.arg_stencil
       WGLRenderer.arg_antialias WGLRenderer.arg_premultipliedAlpha
       WGLRenderer.arg_preserveDrawingBuffer WGLRenderer.alpha
       WGLRenderer.depth WGLRenderer.stencil WGLRenderer.antialias
       WGLRenderer.premultipliedAlpha WGLRenderer.preserveDrawingBuffer
       WGLRenderer.program WGLRenderer.vertexShader WGLRenderer.fragmentShader
       WGLRenderer.buffer WGLRenderer.size WGLRenderer.usage WGLRenderer.type
       WGLRenderer.texture WGLRenderer.width WGLRenderer.height
       WGLRenderer.format WGLRenderer.internalFormat WGLRenderer.src
       WGLRenderer.dst WGLRenderer.vertex WGLRenderer.fragment
       WGLRenderer.bc_name WGLRenderer.bc_data WGLRenderer.bc_usage
       WGLRenderer.bc_type WGLRenderer.tc_name WGLRenderer.tc_width
       WGLRenderer.tc_height WGLRenderer.tc_data_bytes WGLRenderer.tc_format
       WGLRenderer.tc_internalFormat WGLRenderer.tc_type
       WGLRenderer.tc_parameters WGLRenderer.at_location WGLRenderer.at_size
       WGLRenderer.at_type WGLRenderer.at_normalized WGLRenderer.at_stride
       WGLRenderer.at_offset WGLRenderer.dc_mode WGLRenderer.dc_count
       WGLRenderer.dc_indices WGLRenderer.dc_offset WGLRenderer.dc_type
       WGLRenderer.dc_attributes WGLRenderer.canvas WGLRenderer.context
       WGLRenderer.isInitialized WGLRenderer.options_ WGLRenderer.programs_
       WGLRenderer.buffers_ WGLRenderer.textures_ WGLRenderer.framebuffers_
       WGLRenderer.renderbuffers_ WGLRenderer.currentProgram_
       WGLRenderer.clearColor_ WGLRenderer.frameCount_
       WGLRenderer.currentFramebuffer_ WGLRenderer.blendEnabled_
       WGLRenderer.depthTestEnabled_ WGLRenderer.cullFaceEnabled_
       WGLRenderer.cullFaceMode_ WGLRenderer.depthFunc_ WGLRenderer.blendFunc_
       WGLRenderer.VAOs_ WGLRenderer.currentVAO_ WGLRenderer.calls
       WGLRenderer.emitted WGLRenderer.console WGLRenderer.next_object] in *.

Ltac wgpu_eval :=
  cbv [
       bind ret throw gets modify try_catch when result after fst snd negb andb
       orb from_option id JS.defined Canvas.width Canvas.height for_each
       WGPURenderer.emit WGPURenderer.console_warn WGPURenderer.console_error
       WGPURenderer.gpu WGPURenderer.device WGPURenderer.new_object
       WGPURenderer.device_create WGPURenderer.await WGPURenderer.beginFrame
       WGPURenderer.view_of WGPURenderer.current_texture_view
       WGPURenderer.set_canvas WGPURenderer.set_isInitialized
       WGPURenderer.set_device_ WGPURenderer.set_context_
       WGPURenderer.set_format_ WGPURenderer.set_pipelines_
       WGPURenderer.set_computePipelines_ WGPURenderer.set_buffers_
       WGPURenderer.set_textures_ WGPURenderer.set_samplers_
       WGPURenderer.set_bindGroups_ WGPURenderer.set_renderTargets_
       WGPURenderer.set_currentPipeline_ WGPURenderer.set_clearColor_
       WGPURenderer.set_shaderModules_ WGPURenderer.set_frameCount_
       WGPURenderer.set_currentRenderTarget_ WGPURenderer.set_bindGroupLayouts_
       WGPURenderer.set_currentVertexBuffers_
       WGPURenderer.set_currentBindGroups_ WGPURenderer.set_blendState_
       WGPURenderer.set_depthStencilState_
       WGPURenderer.set_depthStencilTexture_ WGPURenderer.set_msaaSampleCount_
       WGPURenderer.set_msaaTexture_ WGPURenderer.set_blendEnabled_
       WGPURenderer.set_depthEnabled_ WGPURenderer.set_cullMode_
       WGPURenderer.set_calls WGPURenderer.set_emitted WGPURenderer.set_console
       WGPURenderer.set_next_object WGPURenderer.buffer WGPURenderer.size
       WGPURenderer.usage WGPURenderer.indexFormat WGPURenderer.texture
       WGPURenderer.view WGPURenderer.width WGPURenderer.height
       WGPURenderer.format WGPURenderer.textureUsage WGPURenderer.sampleCount
       WGPURenderer.bindGroup WGPURenderer.layout WGPURenderer.entries
       WGPURenderer.vertex WGPURenderer.fragment WGPURenderer.bc_name
       WGPURenderer.bc_data WGPURenderer.bc_usage WGPURenderer.bc_indexFormat
       WGPURenderer.tc_name WGPURenderer.tc_width WGPURenderer.tc_height
       WGPURenderer.tc_format WGPURenderer.tc_usage WGPURenderer.sc_name
       WGPURenderer.sc_addressModeU WGPURenderer.sc_addressModeV
       WGPURenderer.sc_addressModeW WGPURenderer.sc_magFilter
       WGPURenderer.sc_minFilter WGPURenderer.rc_name WGPURenderer.rc_width
       WGPURenderer.rc_height WGPURenderer.rc_format
       WGPURenderer.rc_sampleCount WGPURenderer.gc_name WGPURenderer.gc_entries
       WGPURenderer.pr_topology WGPURenderer.pr_cullMode
       WGPURenderer.pc_shaders WGPURenderer.pc_primitive
       WGPURenderer.pc_depthStencil WGPURenderer.pc_bindGroupLayouts
       WGPURenderer.bl_srcFactor WGPURenderer.bl_dstFactor
       WGPURenderer.bl_colorOperation WGPURenderer.bl_alphaSrcFactor
       WGPURenderer.bl_alphaDstFactor WGPURenderer.bl_alphaOperation
       WGPURenderer.dp_depthWriteEnabled WGPURenderer.dp_compare
       WGPURenderer.dc_vertexBuffers WGPURenderer.dc_bindGroups
       WGPURenderer.dc_indexBuffer WGPURenderer.dc_indexCount
       WGPURenderer.dc_instanceCount WGPURenderer.dc_firstIndex
       WGPURenderer.dc_baseVertex WGPURenderer.dc_firstInstance
       WGPURenderer.dc_vertexCount WGPURenderer.dc_firstVertex
       WGPURenderer.workgroupCountX WGPURenderer.workgroupCountY
       WGPURenderer.workgroupCountZ WGPURenderer.dp_bindGroups
       WGPURenderer.canvas WGPURenderer.isInitialized WGPURenderer.device_
       WGPURenderer.context_ WGPURenderer.format_ WGPURenderer.pipelines_
       WGPURenderer.computePipelines_ WGPURenderer.buffers_
       WGPURenderer.textures_ WGPURenderer.samplers_ WGPURenderer.bindGroups_
       WGPURenderer.renderTargets_ WGPURenderer.currentPipeline_
       WGPURenderer.clearColor_ WGPURenderer.clearDepth_
       WGPURenderer.clearStencil_ WGPURenderer.shaderModules_
       WGPURenderer.frameCount_ WGPURenderer.currentRenderTarget_
       WGPURenderer.bindGroupLayouts_ WGPURenderer.currentVertexBuffers_
       WGPURenderer.currentBindGroups_ WGPURenderer.blendState_
       WGPURenderer.depthStencilState_ WGPURenderer.depthStencilTexture_
       WGPURenderer.msaaSampleCount_ WGPURenderer.msaaTexture_
       WGPURenderer.blendEnabled_ WGPURenderer.depthEnabled_
       WGPURenderer.cullMode_ WGPURenderer.calls WGPURenderer.emitted
       WGPURenderer.console WGPURenderer.next_object] in *.

(** Decide the comparisons between numerals that evaluation has exposed. *)
Ltac decide_closed c :=
  let v := eval vm_compute in c in
  lazymatch v with
  | true => change c with true
  | false => change c with false
  end.

Ltac zdecide :=
  repeat match goal with
    | |- context [(?a >? ?b)%Z] => decide_closed (a >? b)%Z
    | |- context [(?a <=? ?b)%Z] => decide_closed (a <=? b)%Z
    | |- context [(?a =? ?b)%Z] => decide_closed (a =? b)%Z
    end.

(** ** The frame assembler: [render] *)

(** [WGLRenderer.render] (inherited by [WGL2Renderer]) checks nothing: it
    counts the frame and emits [frameRendered]. *)
Lemma wgl_render_always_succeeds (s : WGLRenderer.State) :
  WGLRenderer.render s
  = (Normal tt,
     WGLRenderer.set_emitted
       (WGLRenderer.emitted s
        ++ [MkEvent "frameRendered"
              [("frameCount", VNum (WGLRenderer.frameCount_ s + 1))]])
       (WGLRenderer.set_frameCount_ (WGLRenderer.frameCount_ s + 1) s)).
Proof. reflexivity. Qed.

(** On an uninitialized [WGPURenderer], [render] warns and returns. *)
Lemma wgpu_render_uninitialized (s : WGPURenderer.State) dc :
  WGPURenderer.isInitialized s = false ->
  result (WGPURenderer.render dc s) = Normal tt
  /\ WGPURenderer.emitted (after (WGPURenderer.render dc s)) = WGPURenderer.emitted s
  /\ WGPURenderer.calls (after (WGPURenderer.render dc s)) = WGPURenderer.calls s.
Proof.
  intros H. unfold WGPURenderer.render, WGPURenderer.beginFrame. run.
  simpl. rewrite H. simpl. auto.
Qed.

(** With no pipeline set, [render] on an initialized [WGPURenderer] throws
    before anything is encoded. *)
Lemma wgpu_render_no_pipeline (s : WGPURenderer.State) dc :
  WGPURenderer.isInitialized s = true ->
  JS.truthy_str (WGPURenderer.currentPipeline_ s) = false ->
  result (WGPURenderer.render dc s) = Throw NoPipelineSet
  /\ WGPURenderer.emitted (after (WGPURenderer.render dc s)) = WGPURenderer.emitted s
  /\ WGPURenderer.calls (after (WGPURenderer.render dc s)) = WGPURenderer.calls s.
Proof.
  intros H1 H2. unfold WGPURenderer.render, WGPURenderer.beginFrame. run.
  simpl. rewrite H1. simpl. rewrite H2. simpl. auto.
Qed.

(** Case analysis on the next branch of a method body. *)
Ltac branch :=
  match goal with
  | |- context [match ?x with _ => _ end] =>
      lazymatch x with
      | context [match _ with _ => _ end] => fail
      | _ => destruct x eqn:?
      end
  end; simpl in *.

(** A [render] of an initialized [WGPURenderer] that returns has submitted
    one render pass and emitted [frameRendered] once. *)
Lemma wgpu_render_success (s : WGPURenderer.State) dc :
  WGPURenderer.isInitialized s = true ->
  result (WGPURenderer.render dc s) = Normal tt ->
  let s' := after (WGPURenderer.render dc s) in
  WGPURenderer.emitted s'
  = WGPURenderer.emitted s
    ++ [MkEvent "frameRendered"
          [("frameCount", VNum (WGPURenderer.frameCount_ s + 1));
           ("drawCall", VObject)]]
  /\ (exists descriptor commands,
        WGPURenderer.calls s'
        = WGPURenderer.calls s ++ [GPU.submitRenderPass descriptor commands])
  /\ WGPURenderer.frameCount_ s' = WGPURenderer.frameCount_ s + 1.
Proof.
  intros H1. unfold WGPURenderer.render, WGPURenderer.beginFrame,
    WGPURenderer.view_of, WGPURenderer.current_texture_view. run.
  simpl. rewrite H1. simpl.
  repeat (branch; try discriminate); intros _; eauto.
Qed.

(** [render] does return on an initialized [WGPURenderer] whose current
    pipeline is registered and which draws to the canvas without
    multisampling. *)
Lemma wgpu_render_returns (s : WGPURenderer.State) dc name p d c :
  WGPURenderer.isInitialized s = true ->
  WGPURenderer.device_ s = Some d ->
  WGPURenderer.context_ s = Some c ->
  WGPURenderer.currentPipeline_ s = Some name ->
  name <> "" ->
  WGPURenderer.pipelines_ s !! name = Some p ->
  WGPURenderer.currentRenderTarget_ s = None ->
  WGPURenderer.msaaSampleCount_ s = 1 ->
  result (WGPURenderer.render dc s) = Normal tt.
Proof.
  intros H1 H2 H3 H4 H5 H6 H7 H8.
  unfold WGPURenderer.render, WGPURenderer.beginFrame,
    WGPURenderer.view_of, WGPURenderer.current_texture_view. run.
  simpl. rewrite H1. simpl. rewrite H4. simpl.
  rewrite bool_decide_eq_false_2 by done. simpl.
  rewrite H2. simpl. rewrite H7, H8. simpl. rewrite H3, H6. reflexivity.
Qed.

(** C1 (as amended): on the encoder-based backend an initialized renderer
    with no current pipeline makes [render] fail with [NoPipelineSet], with
    no [frameRendered] event and no submission; a [render] that returns on
    an initialized renderer has submitted one pass and emitted
    [frameRendered] exactly once.  On the immediate-mode backends [render]
    has no pipeline check: it always returns, counts the frame and emits
    [frameRendered] exactly once. *)
Theorem render_pipeline_check :
  (forall (s : WGPURenderer.State) dc,
     WGPURenderer.isInitialized s = true ->
     JS.truthy_str (WGPURenderer.currentPipeline_ s) = false ->
     let r := WGPURenderer.render dc s in
     throws (result r) NoPipelineSet
     /\ count_event "frameRendered" (WGPURenderer.emitted (after r))
        = count_event "frameRendered" (WGPURenderer.emitted s)
     /\ WGPURenderer.calls (after r) = WGPURenderer.calls s)
  /\ (forall (s : WGPURenderer.State) dc,
        WGPURenderer.isInitialized s = true ->
        returns (result (WGPURenderer.render dc s)) ->
        let r := WGPURenderer.render dc s in
        count_event "frameRendered" (WGPURenderer.emitted (after r))
        = S (count_event "frameRendered" (WGPURenderer.emitted s))
        /\ WGPURenderer.frameCount_ (after r) = WGPURenderer.frameCount_ s + 1
        /\ exists descriptor commands,
             WGPURenderer.calls (after r)
             = WGPURenderer.calls s ++ [GPU.submitRenderPass descriptor commands])
  /\ (forall (s : WGLRenderer.State),
        let r := WGLRenderer.render s in
        returns (result r)
        /\ count_event "frameRendered" (WGLRenderer.emitted (after r))
           = S (count_event "frameRendered" (WGLRenderer.emitted s))
        /\ WGLRenderer.frameCount_ (after r) = WGLRenderer.frameCount_ s + 1).
Proof.
  split; [|split].
  - intros s dc H1 H2 r.
    destruct (wgpu_render_no_pipeline s dc H1 H2) as (Hr & He & Hc).
    subst r. unfold throws. rewrite Hr, He, Hc. auto.
  - intros s dc H1 [[] Hr] r.
    destruct (wgpu_render_success s dc H1 Hr) as (He & Hc & Hf).
    subst r. rewrite He, count_event_emit, Hf. auto.
  - intros s r. subst r. rewrite wgl_render_always_succeeds.
    unfold returns. cbn [result after fst snd]. simpl.
    rewrite count_event_emit. eauto.
Qed.

Lemma render_pipeline_check_witness :
  throws (result (WGPURenderer.render draw_nothing gpu_ready)) NoPipelineSet
  /\ count_event "frameRendered"
       (WGPURenderer.emitted (after (WGPURenderer.render draw_triangle gpu_with_pipeline)))
     = 1%nat.
Proof.
  destruct render_pipeline_check as (A & B & _). split.
  - apply (A gpu_ready draw_nothing); reflexivity.
  - destruct (B gpu_with_pipeline draw_triangle) as (Hc & _).
    + reflexivity.
    + exists tt. vm_compute. reflexivity.
    + rewrite Hc. vm_compute. reflexivity.
Defined.

(** C1 (as stated) fails.  A freshly constructed [WGLRenderer] has no
    program in use, yet [render] returns, emits [frameRendered] and counts
    the frame; and where [WGPURenderer.render] does fail with
    [NoPipelineSet], [beginFrame] has already incremented the counter. *)
Lemma render_claim_counterexample :
  WGLRenderer.currentProgram_ gl_fresh = None
  /\ result (WGLRenderer.render gl_fresh) = Normal tt
  /\ count_event "frameRendered"
       (WGLRenderer.emitted (after (WGLRenderer.render gl_fresh))) = 1%nat
  /\ WGLRenderer.frameCount_ gl_fresh = 0
  /\ WGLRenderer.frameCount_ (after (WGLRenderer.render gl_fresh)) = 1
  /\ WGPURenderer.currentPipeline_ gpu_ready = None
  /\ result (WGPURenderer.render draw_nothing gpu_ready) = Throw NoPipelineSet
  /\ WGPURenderer.frameCount_ gpu_ready = 0
  /\ WGPURenderer.frameCount_ (after (WGPURenderer.render draw_nothing gpu_ready)) = 1.
Proof. vm_compute. repeat split. Qed.

(** ** [initialize] *)


(** Close a goal of the form "resolved and ready, or rejected". *)
Ltac settle :=
  first
    [ left; repeat split; try reflexivity; eexists; reflexivity
    | right; eexists; repeat split; reflexivity ].




Lemma wgpu_initialize_dichotomy (P : GPUPlatform) (s : WGPURenderer.State) :
  let r := WGPURenderer.initialize P s in
  (result r = Normal true
   /\ WGPURenderer.isInitialized (after r) = true
   /\ is_Some (WGPURenderer.device_ (after r))
   /\ is_Some (WGPURenderer.context_ (after r)))
  \/ (exists e, result r = Throw e
      /\ WGPURenderer.isInitialized (after r) = WGPURenderer.isInitialized s
      /\ WGPURenderer.calls (after r) = WGPURenderer.calls s).
Proof.
  destruct s. unfold WGPURenderer.initialize.
  destruct (WGPURenderer.isSupported P);
    [|wgpu_eval; settle].
  destruct (requestAdapter P) as [[]|], (requestDevice P) as [[]|],
    (getContext_webgpu P).
  all: wgpu_eval; settle.
Qed.





(** The render states a freshly constructed WebGL renderer applies. *)
Lemma applied_render_states_new canvas options :
  applied_render_states (WGLRenderer.new canvas options)
  = [GL.clearColor tenth tenth tenth one;
     GL.disable GL.DEPTH_TEST; GL.disable GL.BLEND; GL.disable GL.CULL_FACE].
Proof. reflexivity. Qed.



(** ** The capability probe: [isSupported] *)

(** C9 (as amended): [isSupported] is a function of the browser alone (no
    renderer instance is read or written).  On the immediate-mode backends
    it holds exactly when the probe canvas grants a context constructed by
    that backend's context class, so a context of another family is
    rejected.  On the encoder-based backend it holds exactly when the four
    WebGPU globals are defined; no context is acquired. *)
Theorem isSupported_probe :
  (forall P : GLPlatform,
     WGLRenderer.isSupported P = true
     <-> (probe_getContext P "webgl" = Some WebGLRenderingContext
          \/ (probe_getContext P "webgl" = None
              /\ probe_getContext P "experimental-webgl" = Some WebGLRenderingContext)))
  /\ (forall P : GLPlatform,
        WGL2Renderer.isSupported P = true
        <-> probe_getContext P "webgl2" = Some WebGL2RenderingContext)
  /\ (forall P : GPUPlatform,
        WGPURenderer.isSupported P = true
        <-> (has_navigator P = true /\ has_gpu P = true
             /\ has_GPUAdapter P = true /\ has_GPUDevice P = true)).
Proof.
  split; [|split]; intros P.
  - unfold WGLRenderer.isSupported, instanceof.
    destruct (probe_getContext P "webgl") as [c|];
      [|destruct (probe_getContext P "experimental-webgl") as [c|]];
      try destruct c; cbn; split; intros H;
      solve [ auto | discriminate
            | destruct H as [H|[H1 H2]]; discriminate ].
  - unfold WGL2Renderer.isSupported, instanceof.
    destruct (probe_getContext P "webgl2") as [c|]; try destruct c; cbn;
      split; intros H; solve [ auto | discriminate ].
  - unfold WGPURenderer.isSupported.
    destruct (has_navigator P), (has_gpu P), (has_GPUAdapter P),
      (has_GPUDevice P); cbn; split; intros H;
      solve [ auto | discriminate | destruct H as (? & ? & ? & ?); discriminate ].
Qed.

Lemma isSupported_probe_witness :
  WGLRenderer.isSupported browser_gl = true
  /\ WGL2Renderer.isSupported browser_fallback = false.
Proof.
  destruct isSupported_probe as (A & B & _). split.
  - apply (A browser_gl). left. reflexivity.
  - destruct (WGL2Renderer.isSupported browser_fallback) eqn:E; [|reflexivity].
    apply (B browser_fallback) in E. discriminate E.
Defined.

(** C9 (as stated) fails on the encoder-based backend: the check accepts a
    browser in which no context can be acquired. *)
Lemma isSupported_claim_counterexample :
  WGPURenderer.isSupported browser_gpu_globals_only = true
  /\ getContext_webgpu browser_gpu_globals_only = false
  /\ result (WGPURenderer.initialize browser_gpu_globals_only
               (WGPURenderer.new canvas0))
     = Throw (ContextAcquisitionFailed "GPU adapter").
Proof. vm_compute. repeat split. Qed.

(** ** Bind groups *)



(** ** Multisampling *)

(** On an uninitialized renderer [setMSAA] warns, changes nothing else and
    returns [false]. *)
Lemma setMSAA_uninitialized (s : WGPURenderer.State) enabled :
  WGPURenderer.isInitialized s = false ->
  let r := WGPURenderer.setMSAA enabled s in
  result r = Normal false
  /\ WGPURenderer.msaaSampleCount_ (after r) = WGPURenderer.msaaSampleCount_ s
  /\ WGPURenderer.msaaTexture_ (after r) = WGPURenderer.msaaTexture_ s
  /\ WGPURenderer.calls (after r) = WGPURenderer.calls s.
Proof.
  intros H. destruct s. unfold WGPURenderer.setMSAA. wgpu_eval. subst.
  wgpu_eval. auto.
Qed.

(** On an initialized renderer that holds its device, [setMSAA] sets the
    sample count to 4 or 1 and allocates or releases the multisample
    target accordingly. *)
Lemma setMSAA_allocates_or_releases (s : WGPURenderer.State) (enabled : bool) d :
  WGPURenderer.isInitialized s = true ->
  WGPURenderer.device_ s = Some d ->
  let r := WGPURenderer.setMSAA enabled s in
  result r = Normal true
  /\ WGPURenderer.msaaSampleCount_ (after r) = (if enabled then 4 else 1)
  /\ WGPURenderer.msaaTexture_ (after r)
     = (if enabled then Some (msaa_target s) else None)
  /\ WGPURenderer.calls (after r)
     = WGPURenderer.calls s ++ release_msaa s
       ++ (if enabled
           then [GPU.createTexture (WGPURenderer.next_object s)
                   (Canvas.width (WGPURenderer.canvas s))
                   (Canvas.height (WGPURenderer.canvas s))
                   (WGPURenderer.format_ s) GPU.RENDER_ATTACHMENT 4;
                 GPU.createView (WGPURenderer.next_object s)
                   (S (WGPURenderer.next_object s))]
           else []).
Proof.
  intros Hi Hd. destruct s. cbn in Hi, Hd. subst.
  unfold WGPURenderer.setMSAA, WGPURenderer.createMSAATexture, release_msaa,
    msaa_target.
  destruct enabled, msaaTexture_ as [old|];
    repeat (progress (wgpu_eval; zdecide));
    repeat split; rewrite <- ?app_assoc, ?app_nil_r; reflexivity.
Qed.

(** ** Texture updates *)









(** ** Buffer updates *)

(** [WGLRenderer.updateBuffer] on a registered buffer never warns and
    never throws, whatever the offset and the length of the data. *)
Lemma wgl_updateBuffer_unchecked (s : WGLRenderer.State) name data offset bm x :
  WGLRenderer.context s = Some x ->
  WGLRenderer.buffers_ s !! name = Some bm ->
  let r := WGLRenderer.updateBuffer name data offset s in
  result r = Normal tt
  /\ WGLRenderer.console (after r) = WGLRenderer.console s.
Proof.
  intros Hc Hb. destruct s, bm as [b sz us ty]. cbn in Hc, Hb. subst.
  unfold WGLRenderer.updateBuffer. wgl_eval. rewrite Hb. wgl_eval.
  destruct (match offset with Some o => o | None => 0 end =? 0),
    (byteLength data =? sz); wgl_eval; auto.
Qed.

(** [WGPURenderer.updateBuffer] warns when the write extends past the
    stored size, and still issues the write. *)
Lemma wgpu_updateBuffer_overflow_warns (s : WGPURenderer.State)
  name data offset bm d :
  WGPURenderer.isInitialized s = true ->
  WGPURenderer.device_ s = Some d ->
  WGPURenderer.buffers_ s !! name = Some bm ->
  byteLength data <= byteLength (underlying data) ->
  default 0 offset + byteLength data > WGPURenderer.size bm ->
  let r := WGPURenderer.updateBuffer name data offset s in
  result r = Normal tt
  /\ WGPURenderer.console (after r)
     = WGPURenderer.console s
       ++ [Warn "Buffer too small for update. Consider recreating." name]
  /\ WGPURenderer.calls (after r)
     = WGPURenderer.calls s
       ++ [GPU.writeBuffer (WGPURenderer.buffer bm) (default 0 offset)
             (byteLength (underlying data))].
Proof.
  intros Hi Hd Hb Hle Hgt. destruct s, bm as [b sz us fmt].
  cbn in Hi, Hd, Hb, Hgt |- *. subst.
  unfold WGPURenderer.updateBuffer. wgpu_eval. rewrite Hb. wgpu_eval.
  assert (E : (match offset with Some o => o | None => 0 end
               + byteLength (underlying data) >? sz) = true).
  { apply Z.gtb_lt. destruct offset; cbn in Hgt; lia. }
  rewrite E. wgpu_eval. destruct offset; auto.
Qed.

(** C4 fails on the immediate-mode backend: a 4-byte write at offset 4
    into the 4-byte buffer "quad" goes to [bufferSubData] as it is;
    [updateBuffer] returns, and the console is as it was. *)
Theorem wgl_updateBuffer_overflow_unreported :
  let r := WGLRenderer.updateBuffer "quad" (ArrayBuffer 4) (Some 4) gl_buffered in
  (WGLRenderer.size <$> WGLRenderer.buffers_ gl_buffered !! "quad") = Some 4
  /\ result r = Normal tt
  /\ WGLRenderer.console (after r) = WGLRenderer.console gl_buffered
  /\ WGLRenderer.calls (after r)
     = WGLRenderer.calls gl_buffered
       ++ [GL.bindBuffer GL.ARRAY_BUFFER (Some 0%nat);
           GL.bufferSubData GL.ARRAY_BUFFER 4 4;
           GL.bindBuffer GL.ARRAY_BUFFER None].
Proof. vm_compute. repeat split. Qed.

(** ** The initialization guard of the creation methods *)

Ltac guarded :=
  intros;
  repeat match goal with
    | s : WGLRenderer.State |- _ => destruct s
    | s : WGPURenderer.State |- _ => destruct s
    end;
  wgl_eval; wgpu_eval; subst; wgl_eval; wgpu_eval;
  repeat split; reflexivity.


(** [WGLRenderer.createFramebuffer] has no such guard: on a renderer whose
    context is null it fails on the first use of the context. *)
Lemma wgl_createFramebuffer_unguarded (P : GLPlatform) (s : WGLRenderer.State)
  name attachments :
  WGLRenderer.context s = None ->
  WGLRenderer.createFramebuffer P name attachments s
  = (Throw (TypeError "context"), s).
Proof.
  unfold WGLRenderer.createFramebuffer, WGLRenderer.gl_create. guarded.
Qed.


(** C6 fails on [WGLRenderer.createFramebuffer]: on a freshly constructed,
    uninitialized renderer it throws the [TypeError] of a property access
    on the null context, not [NotInitialized] (the renderer is left as it
    was). *)
Theorem createFramebuffer_uninitialized :
  WGLRenderer.isInitialized gl_fresh = false
  /\ WGLRenderer.createFramebuffer browser_gl "offscreen" [] gl_fresh
     = (Throw (TypeError "context"), gl_fresh)
  /\ WGLRenderer.createBuffer browser_gl quad_buffer gl_fresh
     = (Throw NotInitialized, gl_fresh).
Proof. vm_compute. repeat split. Qed.

(** ** Lookups by name *)

Ltac unknown_name H :=
  repeat match goal with
    | s : WGLRenderer.State |- _ => destruct s
    | s : WGPURenderer.State |- _ => destruct s
    end;
  wgl_eval; wgpu_eval; subst; wgl_eval; wgpu_eval;
  rewrite ?H; wgl_eval; wgpu_eval; reflexivity.

Lemma useProgram_unknown (s : WGLRenderer.State) (name : string) :
  WGLRenderer.programs_ s !! name = None ->
  WGLRenderer.useProgram name s = (Throw (NotFound "Program" name), s).
Proof. intros H. unfold WGLRenderer.useProgram. unknown_name H. Qed.

Lemma setFramebuffer_unknown (s : WGLRenderer.State) (name : string) :
  name <> "" ->
  WGLRenderer.framebuffers_ s !! name = None ->
  WGLRenderer.setFramebuffer (Some name) s
  = (Throw (NotFound "Framebuffer" name), s).
Proof.
  intros Hne H. unfold WGLRenderer.setFramebuffer, JS.truthy_str.
  rewrite bool_decide_eq_false_2 by done. unknown_name H.
Qed.

Lemma bindTexture_unknown (s : WGLRenderer.State) (name : string) target :
  WGLRenderer.textures_ s !! name = None ->
  WGLRenderer.bindTexture name (Some target) s
  = (Throw (NotFound "Texture" name), s).
Proof. intros H. unfold WGLRenderer.bindTexture. unknown_name H. Qed.


Lemma bindVAO_unknown (s : WGLRenderer.State) (name : string) :
  name <> "" ->
  WGLRenderer.VAOs_ s !! name = None ->
  WGL2Renderer.bindVAO (Some name) s = (Throw (NotFound "VAO" name), s).
Proof.
  intros Hne H. unfold WGL2Renderer.bindVAO, JS.truthy_str.
  rewrite bool_decide_eq_false_2 by done. unknown_name H.
Qed.

Lemma setRenderTarget_unknown (g : WGPURenderer.State) (name : string) :
  name <> "" ->
  WGPURenderer.renderTargets_ g !! name = None ->
  WGPURenderer.setRenderTarget (Some name) g
  = (Throw (NotFound "Render target" name), g).
Proof.
  intros Hne H. unfold WGPURenderer.setRenderTarget, JS.truthy_str.
  rewrite bool_decide_eq_false_2 by done. unknown_name H.
Qed.

Lemma setBindGroup_unknown (g : WGPURenderer.State) (name : string) index :
  WGPURenderer.bindGroups_ g !! name = None ->
  WGPURenderer.setBindGroup name index g
  = (Throw (NotFound "Bind group" name), g).
Proof. intros H. unfold WGPURenderer.setBindGroup. unknown_name H. Qed.

Lemma wgpu_updateBuffer_unknown (g : WGPURenderer.State) (name : string) data offset :
  WGPURenderer.isInitialized g = true ->
  WGPURenderer.buffers_ g !! name = None ->
  WGPURenderer.updateBuffer name data offset g
  = (Throw (NotFound "Buffer" name), g).
Proof. intros Hi H. unfold WGPURenderer.updateBuffer. unknown_name H. Qed.


Lemma dispatchCompute_unknown (g : WGPURenderer.State) (name : string) config :
  WGPURenderer.computePipelines_ g !! name = None ->
  WGPURenderer.dispatchCompute name config g
  = (Throw (NotFound "Compute pipeline" name), g).
Proof. intros H. unfold WGPURenderer.dispatchCompute. unknown_name H. Qed.

(** [setPipeline] is the exception: an unregistered name is ignored. *)
Lemma setPipeline_unknown (g : WGPURenderer.State) (name : string) :
  WGPURenderer.pipelines_ g !! name = None ->
  WGPURenderer.setPipeline name g = (Normal tt, g).
Proof. intros H. unfold WGPURenderer.setPipeline. unknown_name H. Qed.

(** C7 fails on [WGPURenderer.setPipeline]: with no pipeline registered,
    [setPipeline("missing")] returns normally and leaves the renderer as
    it was: no error, no event, no warning, no current pipeline. *)
Theorem setPipeline_unknown_is_silent :
  WGPURenderer.pipelines_ gpu_ready !! "missing" = None
  /\ WGPURenderer.setPipeline "missing" gpu_ready = (Normal tt, gpu_ready)
  /\ WGPURenderer.currentPipeline_ gpu_ready = None
  /\ WGPURenderer.setRenderTarget (Some "missing") gpu_ready
     = (Throw (NotFound "Render target" "missing"), gpu_ready).
Proof. vm_compute. repeat split. Qed.

(** ** [destroy] *)

Lemma bind_gets {S A B} (f : S -> A) (k : A -> M S B) s :
  bind (gets f) k s = k (f s) s.
Proof. reflexivity. Qed.

Lemma bind_modify {S B} (f : S -> S) (k : unit -> M S B) s :
  bind (modify f) k s = k tt (f s).
Proof. reflexivity. Qed.

(** A loop whose body always returns and keeps an invariant returns and
    keeps it. *)
Lemma for_each_invariant {S A} (I : S -> Prop) (f : A -> M S unit) xs :
  (forall a s, I s -> exists s', f a s = (Normal tt, s') /\ I s') ->
  forall s, I s -> exists s', for_each xs f s = (Normal tt, s') /\ I s'.
Proof.
  intros Hf. induction xs as [|a xs IH]; intros s Hs; cbn [for_each].
  - exists s. split; [reflexivity | exact Hs].
  - destruct (Hf a s Hs) as (s1 & E1 & H1).
    rewrite (bind_normal _ _ _ _ _ E1). apply IH, H1.
Qed.



(** Run the loop at the head of the goal: it returns in a state [s1] that
    satisfies the invariant [I], provided the body keeps [I]. *)
Ltac run_loop I s1 E1 R1 :=
  lazymatch goal with
  | |- context [bind (for_each ?xs ?f) ?k ?s0] =>
      let L := fresh "L" in
      assert (L : exists s', for_each xs f s0 = (Normal tt, s') /\ I s');
      [ apply (for_each_invariant I f xs) | destruct L as (s1 & E1 & R1);
        rewrite (bind_normal (for_each xs f) k s0 tt s1 E1) ]
  end.


Lemma wgpu_same_resources_refl s : wgpu_same_resources s s.
Proof. repeat split. Qed.

(** A loop body that only logs returns and changes neither the flag nor
    the three registries that [destroy] walks. *)
Ltac log_body :=
  let s := fresh "s" in
  intros ? s (? & ? & ? & ?);
  destruct s; unfold wgpu_same_resources; wgpu_eval;
  repeat match goal with p : _ * _ |- _ => destruct p end;
  wgpu_eval;
  eexists; split; [reflexivity|]; wgpu_eval;
  repeat split; assumption.

Lemma wgpu_destroy_releases (s : WGPURenderer.State) :
  exists s', WGPURenderer.destroy s = (Normal tt, s') /\ wgpu_released s'.
Proof.
  unfold WGPURenderer.destroy.
  rewrite bind_gets.
  run_loop (wgpu_same_resources s) s1 E1 R1;
    [log_body | apply wgpu_same_resources_refl |].
  rewrite bind_modify, bind_gets.
  run_loop (wgpu_same_resources (WGPURenderer.set_buffers_ ∅ s1)) s2 E2 R2;
    [log_body | apply wgpu_same_resources_refl |].
  rewrite bind_modify, bind_gets.
  run_loop (wgpu_same_resources (WGPURenderer.set_textures_ ∅ s2)) s3 E3 R3;
    [log_body | apply wgpu_same_resources_refl |].
  rewrite !bind_modify. eexists. split; [reflexivity|].
  destruct R2 as (_ & B2 & _), R3 as (_ & B3 & T3 & _).
  destruct s1, s2, s3. unfold wgpu_released. wgpu_eval. subst.
  repeat split.
Qed.



(** ** Reachable states of a WebGPU renderer *)

Ltac cases :=
  repeat (match goal with
          | |- context [match ?x with _ => _ end] =>
              lazymatch x with
              | context [match _ with _ => _ end] => fail
              | _ => destruct x eqn:?
              end
          end; wgpu_eval).

Ltac framing :=
  intros;
  match goal with s : WGPURenderer.State |- _ => destruct s end;
  unfold framed; wgpu_eval; cases;
  repeat split; try reflexivity; lia.

Lemma or_str_nonempty v d :
  d <> "" -> JS.truthy_str (Some (JS.or_str v d)) = true.
Proof.
  intros Hd. unfold JS.truthy_str, JS.or_str. destruct v as [x|].
  - destruct (bool_decide (x = "")) eqn:E.
    + rewrite bool_decide_eq_false_2 by done. reflexivity.
    + rewrite E. reflexivity.
  - rewrite bool_decide_eq_false_2 by done. reflexivity.
Qed.

Lemma or_num_default_nonzero v d : d <> 0 -> JS.or_num v d <> 0.
Proof.
  intros Hd. unfold JS.or_num. destruct v as [n|]; [|exact Hd].
  destruct (Z.eqb_spec n 0); [exact Hd | assumption].
Qed.

Lemma texture_ok_forward s s' tm :
  (WGPURenderer.next_object s <= WGPURenderer.next_object s')%nat ->
  texture_ok s tm -> texture_ok s' tm.
Proof. intros Hle (Hf & Hu & Hh). repeat split; try assumption. lia. Qed.

Lemma invariant_framed s s' : invariant s -> framed s s' -> invariant s'.
Proof.
  intros (Ha & Hb) (Hi & Hd & Hc & Ht & Hn). split.
  - rewrite Hi, Hd, Hc. exact Ha.
  - intros name tm. rewrite Ht, Hi. intros Hl.
    destruct (Hb name tm Hl) as (Hinit & Hok).
    split; [exact Hinit|]. apply (texture_ok_forward s); assumption.
Qed.

Lemma invariant_new canvas : invariant (WGPURenderer.new canvas).
Proof.
  split.
  - discriminate.
  - intros name tm. cbn. rewrite lookup_empty. discriminate.
Qed.

(** The calls that are not about the lifecycle or the textures. *)
Lemma exec_framed (c : Call) (s : WGPURenderer.State) :
  match c with
  | Initialize _ | Destroy | DestroyTexture _ | CreateTexture _
  | UpdateTexture _ _ _ _ => True
  | _ => framed s (exec c s)
  end.
Proof.
  destruct c; try exact I; cbn [exec].
  - unfold WGPURenderer.destroyBuffer. framing.
  - unfold WGPURenderer.destroyPipeline. framing.
  - unfold WGPURenderer.updateBuffer. framing.
  - unfold WGPURenderer.createBindGroupLayout. framing.
  - unfold WGPURenderer.createBindGroup. framing.
  - unfold WGPURenderer.setBindGroup. framing.
  - unfold WGPURenderer.createSampler. framing.
  - unfold WGPURenderer.createBuffer. framing.
  - unfold WGPURenderer.createRenderTarget. framing.
  - unfold WGPURenderer.setRenderTarget. framing.
  - unfold WGPURenderer.setBlendState. framing.
  - unfold WGPURenderer.setDepthState, WGPURenderer.createDepthStencilTexture.
    framing.
  - unfold WGPURenderer.setCullMode. framing.
  - unfold WGPURenderer.setVertexBuffer. framing.
  - unfold WGPURenderer.createComputePipeline, WGPURenderer.getShaderModule_.
    framing.
  - unfold WGPURenderer.dispatchCompute. framing.
  - unfold WGPURenderer.createPipeline, WGPURenderer.getShaderModule_. framing.
  - unfold WGPURenderer.setClearColor. framing.
  - unfold WGPURenderer.setPipeline. framing.
  - unfold WGPURenderer.setMSAA, WGPURenderer.createMSAATexture. framing.
  - unfold WGPURenderer.render. framing.
  - unfold WGPURenderer.setSize, WGPURenderer.createMSAATexture,
      WGPURenderer.createDepthStencilTexture. framing.
  - framing.
  - framing.
Qed.

(** A renderer that is not initialized has no texture registered. *)
Lemma invariant_no_textures s name :
  invariant s ->
  WGPURenderer.isInitialized s = false ->
  WGPURenderer.textures_ s !! name = None.
Proof.
  intros (_ & Hb) Hi. destruct (WGPURenderer.textures_ s !! name) as [tm|] eqn:E;
    [|reflexivity].
  destruct (Hb name tm E) as (Hinit & _). congruence.
Qed.

Lemma initialize_invariant P s :
  WGPURenderer.isInitialized s = false ->
  invariant s -> invariant (after (WGPURenderer.initialize P s)).
Proof.
  intros Hi Hinv.
  assert (Hnone : forall name, WGPURenderer.textures_ s !! name = None)
    by (intros; apply invariant_no_textures; assumption).
  clear Hinv. destruct s. unfold invariant, WGPURenderer.initialize.
  wgpu_eval. subst.
  destruct (WGPURenderer.isSupported P); wgpu_eval;
    [|split; [discriminate|intros ? ?; rewrite Hnone; discriminate]].
  destruct (requestAdapter P) as [[]|], (requestDevice P) as [[]|],
    (getContext_webgpu P); wgpu_eval.
  all: split; [try discriminate|intros ? ?; rewrite Hnone; discriminate].
  intros _. split; eexists; reflexivity.
Qed.

Lemma destroy_invariant s : invariant (after (WGPURenderer.destroy s)).
Proof.
  destruct (wgpu_destroy_releases s) as (s' & E & R). rewrite E.
  destruct R as (_ & Ht & _ & _ & _ & _ & _ & _ & Hi & _).
  unfold after. cbn [snd]. split.
  - rewrite Hi. discriminate.
  - intros name tm. rewrite Ht, lookup_empty. discriminate.
Qed.

Lemma destroyTexture_invariant name s :
  invariant s -> invariant (after (WGPURenderer.destroyTexture name s)).
Proof.
  intros (Ha & Hb). destruct s. unfold invariant, texture_ok in *.
  unfold WGPURenderer.destroyTexture. wgpu_eval.
  destruct (textures_ !! name) as [old|] eqn:E; wgpu_eval;
    [|split; assumption].
  split; [exact Ha|]. intros n tm Hl.
  apply lookup_delete_Some in Hl as (_ & Hl). apply (Hb n tm Hl).
Qed.

Lemma createTexture_invariant config s :
  invariant s -> invariant (after (WGPURenderer.createTexture config s)).
Proof.
  intros (Ha & Hb). destruct s, config as [cname cw ch cf cu].
  unfold invariant, texture_ok in *.
  unfold WGPURenderer.createTexture. wgpu_eval.
  destruct isInitialized; wgpu_eval; [|split; assumption].
  destruct (Ha eq_refl) as ([d ->] & Hc). wgpu_eval.
  split; [intros _; split; [eexists; reflexivity | exact Hc]|].
  intros n tm Hl. apply lookup_insert_Some in Hl as [(_ & <-)|(_ & Hl)].
  - wgpu_eval. split; [reflexivity|]. split; [|split].
    + apply or_str_nonempty. discriminate.
    + apply or_num_default_nonzero. discriminate.
    + lia.
  - destruct (Hb n tm Hl) as (_ & Hf & Hu & Hh).
    split; [reflexivity|]. repeat split; try assumption. lia.
Qed.

Lemma updateTexture_invariant name bytes w h s :
  invariant s -> invariant (after (WGPURenderer.updateTexture name bytes w h s)).
Proof.
  intros (Ha & Hb). destruct s. unfold invariant, texture_ok in *.
  unfold WGPURenderer.updateTexture, WGPURenderer.destroyTexture,
    WGPURenderer.createTexture.
  wgpu_eval.
  destruct (textures_ !! name) as [old|] eqn:E; wgpu_eval;
    [|split; assumption].
  destruct (Hb name old E) as (-> & Hf & Hu & Hh).
  destruct (Ha eq_refl) as ([d ->] & Hc).
  destruct (WGPURenderer.needsResize old w h); wgpu_eval.
  - rewrite E. wgpu_eval. rewrite lookup_insert_eq. wgpu_eval.
    split; [intros _; split; [eexists; reflexivity | exact Hc]|].
    intros n tm Hl. apply lookup_insert_Some in Hl as [(_ & <-)|(_ & Hl)].
    + wgpu_eval. split; [reflexivity|]. split; [|split].
      * apply or_str_nonempty. discriminate.
      * apply or_num_default_nonzero. discriminate.
      * lia.
    + apply lookup_delete_Some in Hl as (_ & Hl).
      destruct (Hb n tm Hl) as (_ & Hf' & Hu' & Hh').
      split; [reflexivity|]. repeat split; try assumption. lia.
  - split; [intros _; split; [eexists; reflexivity | exact Hc]|].
    exact Hb.
Qed.

(** Every public method keeps the invariant. *)
Lemma exec_invariant (c : Call) (s : WGPURenderer.State) :
  allowed c s -> invariant s -> invariant (exec c s).
Proof.
  intros Hallowed Hinv. pose proof (exec_framed c s) as Hframed.
  destruct c; cbn [exec];
    try (apply (invariant_framed s); [exact Hinv | exact Hframed]).
  - apply initialize_invariant; assumption.
  - apply destroyTexture_invariant, Hinv.
  - apply destroy_invariant.
  - apply updateTexture_invariant, Hinv.
  - apply createTexture_invariant, Hinv.
Qed.

Lemma reachable_invariant s : reachable s -> invariant s.
Proof.
  induction 1 as [canvas | c s _ IH Hallowed].
  - apply invariant_new.
  - apply exec_invariant; assumption.
Qed.



(** C8: in a reachable state of an initialized [WGPURenderer], [setMSAA]
    sets the sample count to 4 or 1.  Enabling destroys the previous
    multisample target, if any, and allocates a 4-sample target of the
    canvas size; disabling destroys the target, if any, at once and clears
    the reference. *)
Theorem setMSAA_two_levels (s : WGPURenderer.State) (enabled : bool) :
  reachable s ->
  WGPURenderer.isInitialized s = true ->
  let r := WGPURenderer.setMSAA enabled s in
  result r = Normal true
  /\ WGPURenderer.msaaSampleCount_ (after r) = (if enabled then 4 else 1)
  /\ WGPURenderer.msaaTexture_ (after r)
     = (if enabled then Some (msaa_target s) else None)
  /\ WGPURenderer.calls (after r)
     = WGPURenderer.calls s ++ release_msaa s
       ++ (if enabled
           then [GPU.createTexture (WGPURenderer.next_object s)
                   (Canvas.width (WGPURenderer.canvas s))
                   (Canvas.height (WGPURenderer.canvas s))
                   (WGPURenderer.format_ s) GPU.RENDER_ATTACHMENT 4;
                 GPU.createView (WGPURenderer.next_object s)
                   (S (WGPURenderer.next_object s))]
           else []).
Proof.
  intros Hreach Hi.
  destruct (reachable_invariant s Hreach) as (Ha & _).
  destruct (Ha Hi) as ([d Hd] & _).
  exact (setMSAA_allocates_or_releases s enabled d Hi Hd).
Qed.

Lemma setMSAA_two_levels_witness :
  WGPURenderer.msaaTexture_ (after (WGPURenderer.setMSAA true gpu_ready))
  = Some (msaa_target gpu_ready)
  /\ WGPURenderer.msaaTexture_ (after (WGPURenderer.setMSAA false gpu_msaa)) = None
  /\ WGPURenderer.calls (after (WGPURenderer.setMSAA false gpu_msaa))
     = WGPURenderer.calls gpu_msaa ++ [GPU.destroyTexture 2%nat].
Proof.
  assert (Hr : reachable gpu_ready).
  { apply (reachable_exec (Initialize browser_gpu));
      [apply reachable_new | reflexivity]. }
  assert (Hm : reachable gpu_msaa).
  { apply (reachable_exec (SetMSAA true)); [exact Hr | exact I]. }
  split; [|split].
  - apply (setMSAA_two_levels gpu_ready true Hr). reflexivity.
  - apply (setMSAA_two_levels gpu_msaa false Hm). reflexivity.
  - destruct (setMSAA_two_levels gpu_msaa false Hm) as (_ & _ & _ & H);
      [reflexivity |].
    rewrite H. vm_compute. reflexivity.
Defined.

(** ** Reachable states of a WebGL renderer *)

Section Preservation.

Context {S : Type} (R : S -> Prop).








End Preservation.

Section Lifecycle.

Variable flag : bool.
Variable ctx : option ContextFamily.

Let R := gl_lifecycle flag ctx.








End Lifecycle.












